(** * eslint-plugin-shortest-import: the [shortest-import] rule

    A shallow embedding of [src/rules/shortest-import.ts] together with the
    parts of its run-time environment the rule calls into (JavaScript string
    primitives, Node's POSIX [path] module and the [tsconfig-paths] package),
    followed by the properties of the rule that the specification states.

    Strings are Stdlib [string]s; specifiers and paths are taken to be ASCII,
    so that a JavaScript code unit is one [ascii].  Paths are POSIX paths. *)

From Stdlib Require Import String Ascii List Bool Arith Lia DecimalString.
Import ListNotations.
Open Scope string_scope.

(* ================================================================== *)
(** ** JavaScript string primitives *)
(* ================================================================== *)

Module Js.

(** [s.startsWith(p)] *)
Fixpoint startsWith (s p : string) {struct p} : bool :=
  match p with
  | EmptyString => true
  | String a p' =>
      match s with
      | EmptyString => false
      | String b s' => Ascii.eqb b a && startsWith s' p'
      end
  end.

(** [s.slice(n)] for [0 <= n] *)
Definition slice (n : nat) (s : string) : string :=
  substring n (String.length s - n) s.

(** [s.endsWith(p)] *)
Definition endsWith (s p : string) : bool :=
  Nat.leb (String.length p) (String.length s)
  && String.eqb (slice (String.length s - String.length p) s) p.

(** [s.replace(/^p/, "")] for a literal [p]: drop one leading [p]. *)
Definition dropPrefix (p s : string) : string :=
  if startsWith s p then slice (String.length p) s else s.

(** [s.replace(/p$/, "")] for a literal [p]: drop one trailing [p]. *)
Definition dropSuffix (p s : string) : string :=
  if endsWith s p then substring 0 (String.length s - String.length p) s
  else s.

(** [s.split(sep)] for a one-character separator; [("").split(sep)] is
    the one-element array [[""]]. *)
Fixpoint split (sep : ascii) (s : string) : list string :=
  match s with
  | EmptyString => [EmptyString]
  | String c s' =>
      if Ascii.eqb c sep then EmptyString :: split sep s'
      else match split sep s' with
           | [] => [String c EmptyString]
           | seg :: rest => String c seg :: rest
           end
  end.

(** [segs.join(sep)] *)
Fixpoint join (sep : string) (segs : list string) : string :=
  match segs with
  | [] => EmptyString
  | [seg] => seg
  | seg :: rest => seg ++ sep ++ join sep rest
  end.

(** [s.indexOf(c)] for a character, [None] standing for [-1]. *)
Fixpoint indexOf (c : ascii) (s : string) : option nat :=
  match s with
  | EmptyString => None
  | String d s' =>
      if Ascii.eqb d c then Some 0
      else option_map S (indexOf c s')
  end.

(** [s.lastIndexOf(c)] for a character, [None] standing for [-1]. *)
Fixpoint lastIndexOf (c : ascii) (s : string) : option nat :=
  match s with
  | EmptyString => None
  | String d s' =>
      match lastIndexOf c s' with
      | Some i => Some (S i)
      | None => if Ascii.eqb d c then Some 0 else None
      end
  end.

(** [String(n)] for a non-negative integer. *)
Definition String_of_number (n : nat) : string :=
  NilEmpty.string_of_uint (Nat.to_uint n).

(** The double-quote character (code 34). *)
Definition dquote : ascii := ascii_of_nat 34.

(** The single-quote character (code 39). *)
Definition squote : ascii := ascii_of_nat 39.

(** JavaScript truthiness of a [string | null | undefined] value: the
    empty string is falsy, like [null] and [undefined]. *)
Definition truthy (v : option string) : option string :=
  match v with
  | Some EmptyString => None
  | _ => v
  end.

End Js.

(* ================================================================== *)
(** ** Node's [path] module (POSIX flavour) *)
(* ================================================================== *)

Module Path.

Definition sep : ascii := "/"%char.

(** One step of [normalizeString]: [acc] is the stack of segments kept so
    far, innermost first. *)
Definition normalizeStep (allowAboveRoot : bool)
    (acc : list string) (seg : string) : list string :=
  if String.eqb seg "" || String.eqb seg "." then acc
  else if String.eqb seg ".." then
    match acc with
    | [] => if allowAboveRoot then [".."] else []
    | top :: rest =>
        if String.eqb top ".." then
          (if allowAboveRoot then ".." :: acc else acc)
        else rest
    end
  else seg :: acc.

(** [normalizeString(path, allowAboveRoot, "/", isPosixPathSeparator)]:
    resolves [.] and [..] segments and drops empty ones; the result has
    neither a leading nor a trailing separator. *)
Definition normalizeString (path : string) (allowAboveRoot : bool) : string :=
  Js.join "/"
    (rev (fold_left (normalizeStep allowAboveRoot) (Js.split sep path) [])).

(** The loop of [posix.resolve], over the arguments from right to left
    (the working directory last): returns [resolvedPath] and
    [resolvedAbsolute]. *)
Fixpoint resolveLoop (args : list string) (resolvedPath : string)
    : string * bool :=
  match args with
  | [] => (resolvedPath, false)
  | p :: rest =>
      if String.eqb p "" then resolveLoop rest resolvedPath
      else
        let resolvedPath := p ++ "/" ++ resolvedPath in
        if Js.startsWith p "/" then (resolvedPath, true)
        else resolveLoop rest resolvedPath
  end.

(** [path.resolve(...args)] in a process whose working directory is
    [cwd]. *)
Definition resolve (cwd : string) (args : list string) : string :=
  let '(resolvedPath, resolvedAbsolute) :=
    resolveLoop (rev args ++ [cwd]) "" in
  let resolvedPath := normalizeString resolvedPath (negb resolvedAbsolute) in
  if resolvedAbsolute then "/" ++ resolvedPath
  else if String.eqb resolvedPath "" then "." else resolvedPath.

(** [path.normalize(path)] *)
Definition normalize (path : string) : string :=
  if String.eqb path "" then "."
  else
    let isAbsolute := Js.startsWith path "/" in
    let trailingSeparator := Js.endsWith path "/" in
    let p := normalizeString path (negb isAbsolute) in
    if String.eqb p "" then
      (if isAbsolute then "/" else if trailingSeparator then "./" else ".")
    else
      let p := if trailingSeparator then p ++ "/" else p in
      if isAbsolute then "/" ++ p else p.

(** [path.join(...args)] *)
Definition join (args : list string) : string :=
  match filter (fun a => negb (String.eqb a "")) args with
  | [] => "."
  | parts => normalize (Js.join "/" parts)
  end.

(** The segments of an absolute, normalized path. *)
Definition segments (abs : string) : list string :=
  filter (fun s => negb (String.eqb s "")) (Js.split sep abs).

(** The longest common prefix of two segment lists is dropped from both. *)
Fixpoint dropCommon (from to : list string) : list string * list string :=
  match from, to with
  | f :: from', t :: to' =>
      if String.eqb f t then dropCommon from' to' else (from, to)
  | _, _ => (from, to)
  end.

(** [path.relative(from, to)]: one [..] per segment of [from] below the
    common ancestor, then the segments of [to] below it. *)
Definition relative (cwd : string) (from to : string) : string :=
  if String.eqb from to then ""
  else
    let from := resolve cwd [from] in
    let to := resolve cwd [to] in
    if String.eqb from to then ""
    else
      let '(up, down) := dropCommon (segments from) (segments to) in
      Js.join "/" (map (fun _ => "..") up ++ down).

(** The scan of [posix.dirname] from the end of the path down to index 1:
    [chars] is the path reversed without its first character, [i] the
    index of its head; returns [end]. *)
Fixpoint dirnameScan (chars : list ascii) (i : nat) (matchedSlash : bool)
    : option nat :=
  match chars with
  | [] => None
  | c :: rest =>
      if Ascii.eqb c sep then
        (if matchedSlash then dirnameScan rest (i - 1) matchedSlash
         else Some i)
      else dirnameScan rest (i - 1) false
  end.

(** [path.dirname(path)] *)
Definition dirname (path : string) : string :=
  match path with
  | EmptyString => "."
  | String c0 tl =>
      let hasRoot := Ascii.eqb c0 sep in
      match dirnameScan (rev (list_ascii_of_string tl))
              (String.length path - 1) true with
      | None => if hasRoot then "/" else "."
      | Some e =>
          if hasRoot && Nat.eqb e 1 then "//" else substring 0 e path
      end
  end.

End Path.

(* ================================================================== *)
(** ** The [tsconfig-paths] package *)
(* ================================================================== *)

(** The rule imports [loadConfig] and [createMatchPath] from the npm
    package [tsconfig-paths].  [createMatchPath] and what it calls
    ([getAbsoluteMappingEntries], [getPathsToTry], [matchStar],
    [findFirstExistingPath], [getStrippedPath], [removeExtension]) are
    embedded here; the disk is an explicit argument, the record
    [Filesystem].  [loadConfig] reads and parses a configuration file: its
    result for each path is a field of the host. *)
Module TsconfigPaths.

(** What [require(packageJsonPath)] yields of a [package.json]: its [main]
    field when that is a string. *)
Record PackageJson := { main : option string }.

(** The state of the disk, as [Filesystem.fileExistsSync] and
    [Filesystem.readJsonFromDiskSync] observe it. *)
Record Filesystem := {
  fileExistsSync : string -> bool;
  readJsonFromDiskSync : string -> option PackageJson
}.

(** [ConfigLoaderResult]: [resultType] is ["failed"] or ["success"]. *)
Inductive ConfigLoaderResult :=
| ConfigLoaderFailResult (message : string)
| ConfigLoaderSuccessResult
    (absoluteBaseUrl : string) (paths : list (string * list string)).

(** [paths[key]] on the configuration's [paths] object, given by its
    entries in [Object.entries] order. *)
Fixpoint lookupPaths (key : string) (paths : list (string * list string))
    : option (list string) :=
  match paths with
  | [] => None
  | (k, v) :: rest => if String.eqb k key then Some v else lookupPaths key rest
  end.

Record MappingEntry := { pattern : string; mappingPaths : list string }.

(** [pattern.substr(0, pattern.indexOf("*")).length] *)
Definition getPrefixLength (pattern : string) : nat :=
  match Js.indexOf "*" pattern with
  | Some i => i
  | None => 0
  end.

(** Stable insertion into a list sorted by decreasing prefix length. *)
Fixpoint insertByPrefix (key : string) (sorted : list string) : list string :=
  match sorted with
  | [] => [key]
  | k :: rest =>
      if Nat.ltb (getPrefixLength k) (getPrefixLength key) then key :: sorted
      else k :: insertByPrefix key rest
  end.

(** [arr.concat().sort((a, b) => getPrefixLength(b) - getPrefixLength(a))],
    the sort being stable. *)
Definition sortByLongestPrefix (arr : list string) : list string :=
  fold_left (fun sorted key => insertByPrefix key sorted) arr [].

Definition getAbsoluteMappingEntries (cwd absoluteBaseUrl : string)
    (paths : list (string * list string)) (addMatchAll : bool)
    : list MappingEntry :=
  let sortedKeys := sortByLongestPrefix (map fst paths) in
  let absolutePaths :=
    map (fun key =>
           {| pattern := key;
              mappingPaths :=
                map (fun pathToResolve =>
                       Path.resolve cwd [absoluteBaseUrl; pathToResolve])
                    (match lookupPaths key paths with
                     | Some targets => targets
                     | None => []
                     end) |})
        sortedKeys in
  match lookupPaths "*" paths with
  | None =>
      if addMatchAll then
        absolutePaths
          ++ [{| pattern := "*";
                 mappingPaths := [Js.dropSuffix "/" absoluteBaseUrl ++ "/*"] |}]
      else absolutePaths
  | Some _ => absolutePaths
  end.

Definition matchStar (pattern search : string) : option string :=
  if Nat.ltb (String.length search) (String.length pattern) then None
  else if String.eqb pattern "*" then Some search
  else
    match Js.indexOf "*" pattern with
    | None => None
    | Some star =>
        let part1 := substring 0 star pattern in
        let part2 := Js.slice (star + 1) pattern in
        if negb (String.eqb (substring 0 star search) part1) then None
        else if negb (String.eqb
                        (Js.slice (String.length search - String.length part2)
                                  search)
                        part2) then None
        else Some (substring star
                             (String.length search - String.length part2)
                             search)
    end.

Inductive TryPathType := file | extension | index | package.

Record TryPath := { type : TryPathType; path : string }.

(** What [String.prototype.replace] puts in place of a match of a string
    pattern, for the replacement text [replacement]: a dollar sign followed
    by a dollar sign stands for one dollar sign, followed by an ampersand
    for the matched text, followed by a backquote for the text before the
    match, followed by a quote for the text after it; there being no capture
    group, any other dollar sign stands for itself. *)
Fixpoint getSubstitution (matched before after replacement : string)
    : string :=
  match replacement with
  | EmptyString => EmptyString
  | String c rest =>
      if Ascii.eqb c "$" then
        match rest with
        | EmptyString => String c EmptyString
        | String d rest' =>
            if Ascii.eqb d "$" then
              String "$" (getSubstitution matched before after rest')
            else if Ascii.eqb d "&" then
              matched ++ getSubstitution matched before after rest'
            else if Ascii.eqb d "`" then
              before ++ getSubstitution matched before after rest'
            else if Ascii.eqb d "'" then
              after ++ getSubstitution matched before after rest'
            else String c (getSubstitution matched before after rest)
        end
      else String c (getSubstitution matched before after rest)
  end.

(** [physicalPathPattern.replace("*", starMatch)]: the first [*] only,
    [starMatch] being read as a replacement text. *)
Definition replaceStar (physicalPathPattern starMatch : string) : string :=
  match Js.indexOf "*" physicalPathPattern with
  | None => physicalPathPattern
  | Some i =>
      let before := substring 0 i physicalPathPattern in
      let after := Js.slice (i + 1) physicalPathPattern in
      before ++ getSubstitution "*" before after starMatch ++ after
  end.

(** The candidates of one physical path, in the order they are tried. *)
Definition pathsOfPhysicalPath (extensions : list string)
    (physicalPath : string) : list TryPath :=
  [{| type := file; path := physicalPath |}]
    ++ map (fun e => {| type := extension; path := physicalPath ++ e |})
           extensions
    ++ [{| type := package;
           path := Path.join [physicalPath; "/package.json"] |}]
    ++ (let indexPath := Path.join [physicalPath; "/index"] in
        map (fun e => {| type := index; path := indexPath ++ e |})
            extensions).

Definition getPathsToTry (extensions : list string)
    (absolutePathMappings : list MappingEntry) (requestedModule : string)
    : option (list TryPath) :=
  if String.eqb requestedModule "" || Js.startsWith requestedModule "."
  then None
  else
    let pathsToTry :=
      flat_map
        (fun entry =>
           let starMatch :=
             if String.eqb (pattern entry) requestedModule then Some ""
             else matchStar (pattern entry) requestedModule in
           match starMatch with
           | None => []
           | Some starMatch =>
               flat_map
                 (fun physicalPathPattern =>
                    pathsOfPhysicalPath extensions
                      (replaceStar physicalPathPattern starMatch))
                 (mappingPaths entry)
           end)
        absolutePathMappings in
    match pathsToTry with
    | [] => None
    | _ => Some pathsToTry
    end.

(** [path.substring(0, path.lastIndexOf(".")) || path] *)
Definition removeExtension (p : string) : string :=
  match Js.lastIndexOf "." p with
  | Some (S i) => substring 0 (S i) p
  | _ => p
  end.

Definition getStrippedPath (tryPath : TryPath) : string :=
  match type tryPath with
  | index => Path.dirname (path tryPath)
  | file => path tryPath
  | extension => removeExtension (path tryPath)
  | package => path tryPath
  end.

(** [findFirstExistingMainFieldMappedFile] for [mainFields = ["main"]]. *)
Definition findFirstExistingMainFieldMappedFile (packageJson : PackageJson)
    (packageJsonPath : string) (fileExists : string -> bool)
    : option string :=
  match Js.truthy (main packageJson) with
  | Some candidateMapping =>
      let candidateFilePath :=
        Path.join [Path.dirname packageJsonPath; candidateMapping] in
      if fileExists candidateFilePath then Some candidateFilePath else None
  | None => None
  end.

Fixpoint findFirstExistingPath (tryPaths : list TryPath)
    (readJson : string -> option PackageJson)
    (fileExists : string -> bool) : option string :=
  match tryPaths with
  | [] => None
  | tryPath :: rest =>
      match type tryPath with
      | package =>
          match readJson (path tryPath) with
          | Some packageJson =>
              match findFirstExistingMainFieldMappedFile
                      packageJson (path tryPath) fileExists with
              | Some mainFieldMappedFile => Some mainFieldMappedFile
              | None => findFirstExistingPath rest readJson fileExists
              end
          | None => findFirstExistingPath rest readJson fileExists
          end
      | _ =>
          if fileExists (path tryPath) then Some (getStrippedPath tryPath)
          else findFirstExistingPath rest readJson fileExists
      end
  end.

(** The type of the function [createMatchPath] returns:
    [(requestedModule, readJson?, fileExists?, extensions?)]. *)
Definition MatchPath : Type :=
  string -> option (string -> option PackageJson)
  -> option (string -> bool) -> option (list string) -> option string.

(** [createMatchPath(absoluteBaseUrl, paths)], with the defaults
    [mainFields = ["main"]] and [addMatchAll = true].  An argument left
    [undefined] takes its default: the disk for [readJson] and
    [fileExists]. *)
Definition createMatchPath (fs : Filesystem) (cwd : string)
    (absoluteBaseUrl : string) (paths : list (string * list string))
    : MatchPath :=
  let absolutePaths :=
    getAbsoluteMappingEntries cwd absoluteBaseUrl paths true in
  fun requestedModule readJson fileExists extensions =>
    let readJson :=
      match readJson with
      | Some f => f
      | None => readJsonFromDiskSync fs
      end in
    let fileExists :=
      match fileExists with
      | Some f => f
      | None => fileExistsSync fs
      end in
    let extensions :=
      match extensions with
      | Some l => l
      | None => [".js"; ".json"; ".node"]
      end in
    match getPathsToTry extensions absolutePaths requestedModule with
    | None => None
    | Some tryPaths => findFirstExistingPath tryPaths readJson fileExists
    end.

End TsconfigPaths.

(* ================================================================== *)
(** ** The rule: [src/rules/shortest-import.ts] *)
(* ================================================================== *)

Module ShortestImport.

Import TsconfigPaths.

(** What the rule reads of the process it runs in: [process.cwd()], the
    disk, and [loadConfig] of [tsconfig-paths] as a function of the
    configuration file's path. *)
Record Host := {
  cwd : string;
  disk : Filesystem;
  loadConfig : string -> ConfigLoaderResult
}.

(** [type Options = [{ tsconfigPath?: string }]]; the schema admits no
    other property ([additionalProperties: false]). *)
Record Options := { tsconfigPath : option string }.

(** [defaultOptions: [{}]] *)
Definition defaultOptions : Options := {| tsconfigPath := None |}.

(** The value of a literal: a string, or anything else. *)
Inductive LiteralValue :=
| StringValue (s : string)
| OtherValue.

(** [node.source] of an import declaration: its [value], and its [raw]
    text in the file, quotes included. *)
Record Literal := { value : LiteralValue; raw : string }.

Record ImportDeclarationNode := { source : Literal }.

(** [fixer.replaceText(nodeOrToken, text)] *)
Record RuleFix := { replaced : Literal; text : string }.

(** The argument of [context.report]; [fix_] is the result of its [fix]
    callback. *)
Record ReportDescriptor := {
  node : Literal;
  messageId : string;
  shorter : string;
  shorterCount : string;
  currentCount : string;
  fix_ : RuleFix
}.

(** [s.replace(/\.(ts|tsx|js|jsx)$/, "")] *)
Definition dropSourceExtension (s : string) : string :=
  match find (Js.endsWith s) [".ts"; ".tsx"; ".js"; ".jsx"] with
  | Some ext => Js.dropSuffix ext s
  | None => s
  end.

Definition countSegments (importPath : string) : nat :=
  let segments :=
    filter (fun s => negb (String.eqb s "") && negb (String.eqb s "."))
           (Js.split "/" (Js.dropPrefix "./" importPath)) in
  List.length segments.

(** A JavaScript [Map<string, string>]: its entries in insertion order. *)
Definition AliasMap : Type := list (string * string).

(** [map.set(key, value)]: a key already present keeps its place and
    takes the new value; a new key goes last. *)
Fixpoint mapSet (key value : string) (map : AliasMap) : AliasMap :=
  match map with
  | [] => [(key, value)]
  | (k, v) :: rest =>
      if String.eqb k key then (k, value) :: rest
      else (k, v) :: mapSet key value rest
  end.

(** The body of the inner loop of [buildAliasMap]. *)
Definition setAlias (cwd baseUrl alias : string) (map : AliasMap)
    (target : string) : AliasMap :=
  let cleanAlias := Js.dropSuffix "/*" alias in
  let cleanTarget := Js.dropSuffix "/*" target in
  let absoluteTarget := Path.resolve cwd [baseUrl; cleanTarget] in
  mapSet absoluteTarget cleanAlias map.

Definition buildAliasMap (cwd baseUrl : string)
    (paths : list (string * list string)) : AliasMap :=
  fold_left
    (fun map '(alias, targets) =>
       fold_left (setAlias cwd baseUrl alias) targets map)
    paths [].

(** [segments < shortestSegments], where [None] is [Infinity]. *)
Definition belowShortest (segments : nat) (shortestSegments : option nat)
    : bool :=
  match shortestSegments with
  | None => true
  | Some n => Nat.ltb segments n
  end.

(** The body of the loop of [findShortestAlias], on the pair
    [(shortestAlias, shortestSegments)]. *)
Definition considerAlias (normalized : string)
    (state : option string * option nat) (entry : string * string)
    : option string * option nat :=
  let '(targetPath, aliasPrefix) := entry in
  if Js.startsWith normalized targetPath then
    let remainder := Js.slice (String.length targetPath) normalized in
    let aliasImport := aliasPrefix ++ remainder in
    let aliasImport := Js.dropSuffix "/index" aliasImport in
    let segments := countSegments aliasImport in
    if belowShortest segments (snd state)
    then (Some aliasImport, Some segments)
    else state
  else state.

Definition findShortestAlias (absolutePath _baseUrl : string)
    (aliasMap : AliasMap) : option string :=
  let normalized := dropSourceExtension absolutePath in
  fst (fold_left (considerAlias normalized) aliasMap (None, None)).

Definition toRelativeImport (cwd fromDir toAbsolute : string) : string :=
  let relative := Path.relative cwd fromDir toAbsolute in
  let relative :=
    if negb (Js.startsWith relative ".") then "./" ++ relative
    else relative in
  let relative := dropSourceExtension relative in
  let relative := Js.dropSuffix "/index" relative in
  relative.

(** The report both branches make: [shorter] replaces [node.source], in
    double quotes. *)
Definition shorterImportAvailable (node : ImportDeclarationNode)
    (shorter : string) (shorterSegments currentSegments : nat)
    : ReportDescriptor :=
  {| node := source node;
     messageId := "shorterImportAvailable";
     shorter := shorter;
     shorterCount := Js.String_of_number shorterSegments;
     currentCount := Js.String_of_number currentSegments;
     fix_ := {| replaced := source node;
               text := String Js.dquote (shorter ++ String Js.dquote "") |}
  |}.

(** The listener [ImportDeclaration(node)] that [create] returns, as a
    function of the variables it closes over; [None] when it returns
    without a call of [context.report]. *)
Definition ImportDeclaration (cwd fileDir absoluteBaseUrl : string)
    (matchPath : MatchPath) (aliasMap : AliasMap)
    (node : ImportDeclarationNode) : option ReportDescriptor :=
  match value (source node) with
  | OtherValue => None
  | StringValue source =>
      let isRelative := Js.startsWith source "." in
      let currentSegments := countSegments source in
      if isRelative then
        let absolutePath := Path.resolve cwd [fileDir; source] in
        let aliasImport :=
          findShortestAlias absolutePath absoluteBaseUrl aliasMap in
        match Js.truthy aliasImport with
        | Some aliasImport =>
            let aliasSegments := countSegments aliasImport in
            if Nat.ltb aliasSegments currentSegments then
              Some (shorterImportAvailable node aliasImport
                      aliasSegments currentSegments)
            else None
        | None => None
        end
      else
        let extensions := [".ts"; ".tsx"; ".js"; ".jsx"; ""] in
        let resolved := matchPath source None None (Some extensions) in
        match Js.truthy resolved with
        | None => None
        | Some resolved =>
            let relativeImport := toRelativeImport cwd fileDir resolved in
            let relativeSegments := countSegments relativeImport in
            if Nat.ltb relativeSegments currentSegments then
              Some (shorterImportAvailable node relativeImport
                      relativeSegments currentSegments)
            else None
        end
  end.

(** [options.tsconfigPath ?? path.join(process.cwd(), "tsconfig.json")] *)
Definition configPath (host : Host) (options : Options) : string :=
  match tsconfigPath options with
  | Some p => p
  | None => Path.join [cwd host; "tsconfig.json"]
  end.

(** [create(context, [options])] for [context.filename = filename]: the
    listeners of the rule, [None] for the empty object [{}]. *)
Definition create (host : Host) (filename : string) (options : Options)
    : option (ImportDeclarationNode -> option ReportDescriptor) :=
  let fileDir := Path.dirname filename in
  let tsconfigPath := configPath host options in
  match loadConfig host tsconfigPath with
  | ConfigLoaderFailResult _ => None
  | ConfigLoaderSuccessResult absoluteBaseUrl paths =>
      let matchPath :=
        createMatchPath (disk host) (cwd host) absoluteBaseUrl paths in
      let aliasMap := buildAliasMap (cwd host) absoluteBaseUrl paths in
      Some (ImportDeclaration (cwd host) fileDir absoluteBaseUrl
              matchPath aliasMap)
  end.

(** Linting one import declaration of the file [filename]: the reports
    the rule makes when the linter visits [node]. *)
Definition lint (host : Host) (filename : string) (options : Options)
    (node : ImportDeclarationNode) : list ReportDescriptor :=
  match create host filename options with
  | None => []
  | Some listener =>
      match listener node with
      | Some report => [report]
      | None => []
      end
  end.

End ShortestImport.

(* ================================================================== *)
(** ** The specification's vocabulary, read off the rule *)
(* ================================================================== *)

Module Engine.

Import TsconfigPaths ShortestImport.

(** The specification's [Verdict]: [Keep] when the listener makes no
    report, [Replace] of the reported [shorter] specifier otherwise. *)
Inductive Verdict :=
| Keep
| Replace (alternative : string).

Definition verdictOf (report : option ReportDescriptor) : Verdict :=
  match report with
  | None => Keep
  | Some r => Replace (shorter r)
  end.

(** An import declaration whose source is the string [specifier], written
    [raw] in the file. *)
Definition importOf (specifier raw : string) : ImportDeclarationNode :=
  {| source := {| value := StringValue specifier; raw := raw |} |}.

(** The extension list of the non-relative branch. *)
Definition extensions : list string := [".ts"; ".tsx"; ".js"; ".jsx"; ""].

(** The alternative the listener computes for [specifier] before it
    compares segment counts: for a relative specifier the alias that
    [findShortestAlias] returns, when truthy; otherwise the relative form
    of what [matchPath] returns, when truthy. *)
Definition alternative (cwd fileDir absoluteBaseUrl : string)
    (matchPath : MatchPath) (aliasMap : AliasMap) (specifier : string)
    : option string :=
  if Js.startsWith specifier "." then
    Js.truthy
      (findShortestAlias (Path.resolve cwd [fileDir; specifier])
         absoluteBaseUrl aliasMap)
  else
    option_map (toRelativeImport cwd fileDir)
      (Js.truthy (matchPath specifier None None (Some extensions))).

(** The verdict of the listener on [specifier]. *)
Definition verdict (cwd fileDir absoluteBaseUrl : string)
    (matchPath : MatchPath) (aliasMap : AliasMap) (specifier : string)
    : Verdict :=
  verdictOf
    (ImportDeclaration cwd fileDir absoluteBaseUrl matchPath aliasMap
       (importOf specifier specifier)).

(** A segment that [countSegments] counts: neither empty nor [.]. *)
Definition counted (seg : string) : bool :=
  negb (String.eqb seg "") && negb (String.eqb seg ".").

(** A segment holds no separator. *)
Definition noSlash (seg : string) : Prop := Js.indexOf "/" seg = None.

(** All the (alias, target) pairs of a configuration, in configuration
    order, each as the entry [buildAliasMap] sets for it. *)
Definition aliasPairs (cwd baseUrl : string)
    (paths : list (string * list string)) : list (string * string) :=
  flat_map
    (fun '(alias, targets) =>
       map (fun target =>
              (Path.resolve cwd [baseUrl; Js.dropSuffix "/*" target],
               Js.dropSuffix "/*" alias))
           targets)
    paths.

(** [map.get(key)] *)
Fixpoint mapGet (key : string) (map : AliasMap) : option string :=
  match map with
  | [] => None
  | (k, v) :: rest => if String.eqb k key then Some v else mapGet key rest
  end.

(** The value of the last pair with key [key]. *)
Definition lastValue (key : string) (pairs : list (string * string))
    : option string :=
  mapGet key (rev pairs).

(** A chain of rewrites: each specifier is what the listener's fix puts
    in place of the one before it. *)
Inductive Rewrites (cwd fileDir absoluteBaseUrl : string)
    (matchPath : MatchPath) (aliasMap : AliasMap)
    : string -> list string -> Prop :=
| RewritesNil : forall s,
    Rewrites cwd fileDir absoluteBaseUrl matchPath aliasMap s []
| RewritesCons : forall s alt rest,
    verdict cwd fileDir absoluteBaseUrl matchPath aliasMap s = Replace alt ->
    Rewrites cwd fileDir absoluteBaseUrl matchPath aliasMap alt rest ->
    Rewrites cwd fileDir absoluteBaseUrl matchPath aliasMap s (alt :: rest).

(** The keys of [keys] that are not in [seen], each once, in the order of
    their first occurrence. *)
Fixpoint firstOccurrences (seen keys : list string) : list string :=
  match keys with
  | [] => []
  | k :: rest =>
      if existsb (fun s => String.eqb s k) seen
      then firstOccurrences seen rest
      else k :: firstOccurrences (seen ++ [k]) rest
  end.

(** Two disks answer alike what [findFirstExistingPath] asks about one
    tried path: whether a file is there; for a [package.json], what it
    holds and whether the file its [main] field names is there. *)
Definition agreeOn (d1 d2 : Filesystem) (tryPath : TryPath) : Prop :=
  match type tryPath with
  | package =>
      readJsonFromDiskSync d1 (path tryPath)
      = readJsonFromDiskSync d2 (path tryPath)
      /\ forall packageJson candidateMapping,
           readJsonFromDiskSync d1 (path tryPath) = Some packageJson ->
           Js.truthy (main packageJson) = Some candidateMapping ->
           fileExistsSync d1
             (Path.join [Path.dirname (path tryPath); candidateMapping])
           = fileExistsSync d2
               (Path.join [Path.dirname (path tryPath); candidateMapping])
  | _ => fileExistsSync d1 (path tryPath) = fileExistsSync d2 (path tryPath)
  end.

(** The paths [matchPath] tries for a specifier, in order, under the
    configuration [create] builds it from. *)
Definition triedPaths (cwd absoluteBaseUrl : string)
    (paths : list (string * list string)) (specifier : string)
    : list TryPath :=
  match getPathsToTry extensions
          (getAbsoluteMappingEntries cwd absoluteBaseUrl paths true)
          specifier with
  | Some tryPaths => tryPaths
  | None => []
  end.

End Engine.

(* ================================================================== *)
(** ** A fixture: the project of the rule's test suite *)
(* ================================================================== *)

Module Fixture.

Import TsconfigPaths ShortestImport.

Definition files : list string :=
  ["/fx/src/components/Button.ts"; "/fx/src/components/App.ts";
   "/fx/src/components/index.ts"; "/fx/src/utils/helpers.ts";
   "/fx/src/utils/other.ts"; "/fx/src/features/auth/login.ts"].

Definition diskOf (files : list string) : Filesystem :=
  {| fileExistsSync := fun p => existsb (String.eqb p) files;
     readJsonFromDiskSync := fun _ => None |}.

Definition paths : list (string * list string) :=
  [("@/*", ["src/*"]);
   ("@components/*", ["src/components/*"]);
   ("@utils/*", ["src/utils/*"])].

Definition hostOf (files : list string)
    (paths : list (string * list string)) : Host :=
  {| cwd := "/fx";
     disk := diskOf files;
     loadConfig := fun _ => ConfigLoaderSuccessResult "/fx" paths |}.

Definition host : Host := hostOf files paths.

(** What [create] builds for the fixture. *)
Definition matchPath : MatchPath :=
  createMatchPath (diskOf files) "/fx" "/fx" paths.

Definition aliasMap : AliasMap := buildAliasMap "/fx" "/fx" paths.

(** Two aliases of one directory. *)
Definition sharedTargetPaths : list (string * list string) :=
  [("@a/*", ["lib/*"]); ("@/b/*", ["lib/*"])].

(** A directory with three aliases, another directory between them. *)
Definition repeatedTargetPaths : list (string * list string) :=
  [("@a/*", ["lib/*"]); ("@b/*", ["src/*"; "lib/*"]); ("@c/*", ["lib/*"])].

(** One alias, of the directory [utils] under the base directory. *)
Definition utilsPaths : list (string * list string) :=
  [("@utils/*", ["utils/*"])].

(** The fixture with a nested directory [x] of components that has an
    alias of its own. *)
Definition nestedFiles : list string :=
  "/fx/src/components/x/Button.ts" :: files.

Definition nestedPaths : list (string * list string) :=
  paths ++ [("@x/*", ["src/components/x/*"])].

Definition nestedMatchPath : MatchPath :=
  createMatchPath (diskOf nestedFiles) "/fx" "/fx" nestedPaths.

Definition nestedAliasMap : AliasMap := buildAliasMap "/fx" "/fx" nestedPaths.

(** An import of [specifier] written in double quotes. *)
Definition doubleQuoted (specifier : string) : ImportDeclarationNode :=
  Engine.importOf specifier
    (String Js.dquote (specifier ++ String Js.dquote "")).

(** An import of [specifier] written in single quotes. *)
Definition singleQuoted (specifier : string) : ImportDeclarationNode :=
  Engine.importOf specifier
    (String Js.squote (specifier ++ String Js.squote "")).

End Fixture.

(* ================================================================== *)
(** ** The steps of the alias resolver *)
(* ================================================================== *)

Module Resolver.

Import ShortestImport.

(** The test of the loop of [findShortestAlias]:
    [normalized.startsWith(targetPath)]. *)
Definition matches (normalized : string) (entry : string * string) : bool :=
  Js.startsWith normalized (fst entry).

(** The [aliasImport] the loop computes for an entry that matches:
    [aliasPrefix + remainder] without a trailing [/index]. *)
Definition candidateOf (normalized : string) (entry : string * string)
    : string :=
  Js.dropSuffix "/index"
    (snd entry ++ Js.slice (String.length (fst entry)) normalized).

(** A string is empty or starts with a dot. *)
Definition emptyOrDot (s : string) : Prop :=
  s = "" \/ Js.startsWith s "." = true.

(** A segment that [path.resolve] keeps as it is: not empty, not [.], not
    [..], and without separator. *)
Definition plainSegment (seg : string) : Prop :=
  Engine.noSlash seg /\ seg <> "" /\ seg <> "." /\ seg <> "..".

(** The absolute path of a list of segments. *)
Definition absoluteOf (segs : list string) : string :=
  "/" ++ Js.join "/" segs.

(** The relative path between two absolute paths given by their
    segments: one [..] per segment of [from] below the common ancestor,
    then the segments of [to] below it, after [./] when this does not
    start with a dot. *)
Definition dottedRelative (from to : list string) : string :=
  let relative :=
    Js.join "/"
      (map (fun _ => "..") (fst (Path.dropCommon from to))
         ++ snd (Path.dropCommon from to)) in
  if negb (Js.startsWith relative ".") then "./" ++ relative else relative.

(** The number of directory steps between two paths: up to the common
    ancestor, then down. *)
Definition distance (from to : list string) : nat :=
  List.length (fst (Path.dropCommon from to))
  + List.length (snd (Path.dropCommon from to)).

(** The disk has nothing at a tried path: no file, and for a
    [package.json] nothing to read. *)
Definition absent (fs : TsconfigPaths.Filesystem)
    (tryPath : TsconfigPaths.TryPath) : Prop :=
  match TsconfigPaths.type tryPath with
  | TsconfigPaths.package =>
      TsconfigPaths.readJsonFromDiskSync fs (TsconfigPaths.path tryPath) = None
  | _ => TsconfigPaths.fileExistsSync fs (TsconfigPaths.path tryPath) = false
  end.

End Resolver.

(* ================================================================== *)
(** ** Properties *)
(* ================================================================== *)

Import TsconfigPaths ShortestImport Engine.

#[local] Arguments Ascii.eqb : simpl never.

(** *** The decision *)

Section Decision.

Variables (cwd fileDir absoluteBaseUrl : string).
Variables (matchPath : MatchPath) (aliasMap : AliasMap).

Let listener := ImportDeclaration cwd fileDir absoluteBaseUrl matchPath aliasMap.
Let alt := alternative cwd fileDir absoluteBaseUrl matchPath aliasMap.

(** The listener in terms of [alternative]: it reports exactly when an
    alternative exists with strictly fewer segments. *)
Lemma ImportDeclaration_alternative (specifier raw : string) :
  listener (importOf specifier raw) =
  match alt specifier with
  | Some a =>
      if Nat.ltb (countSegments a) (countSegments specifier)
      then Some (shorterImportAvailable (importOf specifier raw) a
                   (countSegments a) (countSegments specifier))
      else None
  | None => None
  end.
Proof.
  unfold listener, alt, ImportDeclaration, alternative.
  cbn [importOf source value].
  destruct (Js.startsWith specifier ".").
  - destruct (Js.truthy (findShortestAlias _ _ _)); reflexivity.
  - fold extensions.
    destruct (Js.truthy (matchPath specifier None None (Some extensions)));
      reflexivity.
Qed.

(** A non-string source is never reported. *)
Lemma ImportDeclaration_non_string (raw : string) :
  listener {| source := {| value := OtherValue; raw := raw |} |} = None.
Proof. reflexivity. Qed.

End Decision.

(** C1. For every import specifier the listener's verdict is
    [Replace alt] if and only if an alternative exists (the alias found for
    a relative specifier, the relative form found for any other one) and
    its segment count is strictly below the original's; the verdict is
    [Keep] when there is no alternative, and when the alternative's count is
    greater than or equal to the original's.  The report carries both
    counts. *)
Theorem C1_replace_iff_strictly_shorter :
  forall (cwd fileDir absoluteBaseUrl : string) (matchPath : MatchPath)
         (aliasMap : AliasMap) (specifier raw : string),
    let report :=
      ImportDeclaration cwd fileDir absoluteBaseUrl matchPath aliasMap
        (importOf specifier raw) in
    let alt :=
      alternative cwd fileDir absoluteBaseUrl matchPath aliasMap specifier in
    (forall a,
        verdictOf report = Replace a <->
        alt = Some a /\ countSegments a < countSegments specifier)
    /\ (alt = None -> verdictOf report = Keep)
    /\ (forall a, alt = Some a ->
                  countSegments specifier < countSegments a ->
                  verdictOf report = Keep)
    /\ (forall a, alt = Some a ->
                  countSegments a = countSegments specifier ->
                  verdictOf report = Keep)
    /\ (forall r, report = Some r ->
                  shorterCount r = Js.String_of_number (countSegments (shorter r))
                  /\ currentCount r = Js.String_of_number (countSegments specifier)).
Proof.
  intros cwd fileDir base matchPath aliasMap specifier raw report alt.
  subst report alt.
  rewrite ImportDeclaration_alternative.
  destruct (alternative cwd fileDir base matchPath aliasMap specifier) as [a0|].
  - destruct (Nat.ltb_spec (countSegments a0) (countSegments specifier))
      as [Hlt|Hge]; simpl.
    + split; [|split; [|split; [|split]]].
      * intros a; split.
        -- intros H; inversion H; subst; auto.
        -- intros [H _]; inversion H; reflexivity.
      * discriminate.
      * intros a H Hgt; inversion H; subst; lia.
      * intros a H Heq; inversion H; subst; lia.
      * intros r H; inversion H; subst; simpl; auto.
    + split; [|split; [|split; [|split]]]; try discriminate; auto.
      intros a; split; [discriminate|].
      intros [H Hlt]; inversion H; subst; lia.
  - simpl.
    split; [|split; [|split; [|split]]]; try discriminate; auto.
    intros a; split; [discriminate|intros [H _]; discriminate].
Qed.

(** At [../utils/helpers] in [/fx/src/components] of the fixture the alias
    [@utils/helpers] exists and has 2 segments against 3: the verdict is
    [Replace]. *)
Lemma C1_replace_iff_strictly_shorter_witness :
  verdictOf
    (ImportDeclaration "/fx" "/fx/src/components" "/fx"
       Fixture.matchPath Fixture.aliasMap
       (importOf "../utils/helpers" "../utils/helpers"))
  = Replace "@utils/helpers".
Proof.
  pose proof
    (C1_replace_iff_strictly_shorter "/fx" "/fx/src/components" "/fx"
       Fixture.matchPath Fixture.aliasMap
       "../utils/helpers" "../utils/helpers") as H.
  cbv zeta in H. destruct H as [H _].
  apply H. split; [reflexivity | vm_compute; lia].
Defined.

(** *** Strings: splitting and joining *)

Section SplitJoin.

Lemma noSlash_cons (c : ascii) (seg : string) :
  noSlash (String c seg) -> Ascii.eqb c "/" = false /\ noSlash seg.
Proof.
  unfold noSlash; simpl.
  destruct (Ascii.eqb c "/"); [discriminate|].
  destruct (Js.indexOf "/" seg); [discriminate|auto].
Qed.

Lemma split_nonempty (sep : ascii) (s : string) : Js.split sep s <> [].
Proof.
  destruct s as [|c s]; simpl; [discriminate|].
  destruct (Ascii.eqb c sep); [discriminate|].
  destruct (Js.split sep s); discriminate.
Qed.

Lemma split_segment (seg : string) :
  noSlash seg -> Js.split "/" seg = [seg].
Proof.
  induction seg as [|c seg IH]; intros H; [reflexivity|].
  apply noSlash_cons in H as [Hc Hseg].
  simpl. rewrite Hc, (IH Hseg). reflexivity.
Qed.

Lemma split_segment_slash (seg rest : string) :
  noSlash seg ->
  Js.split "/" (seg ++ "/" ++ rest) = seg :: Js.split "/" rest.
Proof.
  induction seg as [|c seg IH]; intros H; [reflexivity|].
  apply noSlash_cons in H as [Hc Hseg].
  simpl. rewrite Hc.
  change (String "/" rest) with ("/" ++ rest). rewrite (IH Hseg).
  reflexivity.
Qed.

(** Splitting undoes joining, on a non-empty list of separator-free
    segments. *)
Lemma split_join (segs : list string) :
  segs <> [] -> Forall noSlash segs ->
  Js.split "/" (Js.join "/" segs) = segs.
Proof.
  induction segs as [|seg rest IH]; intros Hne Hall; [congruence|].
  inversion Hall as [|? ? Hseg Hrest]; subst.
  destruct rest as [|seg' rest'].
  - simpl. apply split_segment; assumption.
  - change (Js.join "/" (seg :: seg' :: rest'))
      with (seg ++ "/" ++ Js.join "/" (seg' :: rest')).
    rewrite split_segment_slash by assumption.
    rewrite IH by (assumption || discriminate). reflexivity.
Qed.

Lemma substring_all (s : string) : substring 0 (String.length s) s = s.
Proof. induction s as [|c s IH]; simpl; [reflexivity|now rewrite IH]. Qed.

Lemma slice_0 (s : string) : Js.slice 0 s = s.
Proof. unfold Js.slice. rewrite Nat.sub_0_r. apply substring_all. Qed.

Lemma slice_cons (n : nat) (c : ascii) (s : string) :
  Js.slice (S n) (String c s) = Js.slice n s.
Proof. reflexivity. Qed.

(** A joined list that starts with [./] starts with the segment [.]. *)
Lemma join_starts_dot_slash (segs : list string) :
  Forall noSlash segs ->
  Js.startsWith (Js.join "/" segs) "./" = true ->
  exists rest, segs = "." :: rest /\ rest <> []
               /\ Js.slice 2 (Js.join "/" segs) = Js.join "/" rest.
Proof.
  intros Hall Hpre.
  destruct segs as [|seg rest]; [discriminate|].
  inversion Hall as [|? ? Hseg Hrest]; subst.
  destruct seg as [|c seg].
  - destruct rest; simpl in Hpre; discriminate.
  - assert (c = "."%char) as ->.
    { destruct rest; simpl in Hpre;
        apply andb_prop in Hpre as [Hc _]; now apply Ascii.eqb_eq. }
    destruct seg as [|d seg].
    + destruct rest as [|seg' rest']; [discriminate|].
      exists (seg' :: rest').
      split; [reflexivity|]. split; [discriminate|].
      change (Js.join "/" ("." :: seg' :: rest'))
        with (String "." (String "/" (Js.join "/" (seg' :: rest')))).
      rewrite !slice_cons. apply slice_0.
    + exfalso.
      apply noSlash_cons in Hseg as [_ Hseg].
      apply noSlash_cons in Hseg as [Hd _].
      destruct rest; simpl in Hpre;
        rewrite Hd in Hpre; simpl in Hpre; discriminate.
Qed.

End SplitJoin.

(** *** Segment counting *)

(** What [countSegments] computes, by the segments of its argument. *)
Lemma countSegments_join (segs : list string) :
  Forall noSlash segs ->
  countSegments (Js.join "/" segs) = List.length (filter counted segs).
Proof.
  intros Hall. unfold countSegments, Js.dropPrefix.
  fold counted.
  change (fun s : string => negb (String.eqb s "") && negb (String.eqb s "."))
    with counted.
  destruct (Js.startsWith (Js.join "/" segs) "./") eqn:Hpre.
  - destruct (join_starts_dot_slash segs Hall Hpre) as (rest & -> & Hne & Hsl).
    change (String.length "./") with 2. rewrite Hsl.
    inversion Hall; subst.
    rewrite split_join by assumption. reflexivity.
  - destruct segs as [|seg rest]; [reflexivity|].
    rewrite split_join by (assumption || discriminate). reflexivity.
Qed.

Lemma dropPrefix_dot_slash (s : string) : Js.dropPrefix "./" ("./" ++ s) = s.
Proof.
  unfold Js.dropPrefix.
  replace (Js.startsWith ("./" ++ s) "./") with true by reflexivity.
  change ("./" ++ s) with (String "." (String "/" s)).
  change (String.length "./") with 2.
  rewrite !slice_cons. apply slice_0.
Qed.

(** C2. [countSegments] strips one leading [./], splits on [/], discards
    the empty segments and the segments [.], keeps the segments [..], and
    returns how many remain: joined from any list of separator-free
    segments, a specifier counts the segments that are neither empty nor
    [.]; and the six specifiers of the table count 1, 3, 2, 3, 1 and 3. *)
Theorem C2_countSegments_table :
  (forall s, countSegments ("./" ++ s)
             = List.length (filter counted (Js.split "/" s)))
  /\ (forall s, Js.startsWith s "./" = false ->
                countSegments s = List.length (filter counted (Js.split "/" s)))
  /\ (forall segs, Forall noSlash segs ->
                   countSegments (Js.join "/" segs)
                   = List.length (filter counted segs))
  /\ (counted "" = false /\ counted "." = false /\ counted ".." = true)
  /\ countSegments "./foo" = 1
  /\ countSegments "../bar/baz" = 3
  /\ countSegments "@components/Button" = 2
  /\ countSegments "@/components/Button" = 3
  /\ countSegments "@utils" = 1
  /\ countSegments "a/b/c" = 3.
Proof.
  split; [|split; [|split]].
  - intros s. unfold countSegments. rewrite dropPrefix_dot_slash. reflexivity.
  - intros s H. unfold countSegments, Js.dropPrefix. rewrite H. reflexivity.
  - exact countSegments_join.
  - repeat split; reflexivity.
Qed.

(** The segments [..], [bar], [baz]: three are counted, none is dropped. *)
Lemma C2_countSegments_table_witness :
  countSegments (Js.join "/" [".."; "bar"; "baz"]) = 3
  /\ countSegments "././foo" = 1.
Proof.
  split.
  - rewrite (proj1 (proj2 (proj2 C2_countSegments_table)) [".."; "bar"; "baz"]).
    + reflexivity.
    + repeat constructor.
  - exact (proj1 C2_countSegments_table "./foo").
Defined.

(** *** The alias table *)

Section AliasTable.

Let setPair (map : AliasMap) (kv : string * string) : AliasMap :=
  mapSet (fst kv) (snd kv) map.

Lemma buildAliasMap_from (cwd baseUrl : string)
    (paths : list (string * list string)) (init : AliasMap) :
  fold_left
    (fun map '(alias, targets) =>
       fold_left (setAlias cwd baseUrl alias) targets map)
    paths init
  = fold_left setPair (aliasPairs cwd baseUrl paths) init.
Proof.
  revert init.
  induction paths as [|[alias targets] paths IH]; intros init; [reflexivity|].
  simpl. rewrite fold_left_app, IH. f_equal.
  clear. revert init.
  induction targets as [|target targets IH]; intros init; [reflexivity|].
  simpl. apply IH.
Qed.

(** [buildAliasMap] sets the pairs of the configuration one after the
    other, starting from the empty map. *)
Lemma buildAliasMap_pairs (cwd baseUrl : string)
    (paths : list (string * list string)) :
  buildAliasMap cwd baseUrl paths
  = fold_left setPair (aliasPairs cwd baseUrl paths) [].
Proof. apply buildAliasMap_from. Qed.

Lemma mapGet_mapSet (key value key' : string) (map : AliasMap) :
  mapGet key' (mapSet key value map)
  = if String.eqb key key' then Some value else mapGet key' map.
Proof.
  induction map as [|[k v] map IH]; simpl.
  - reflexivity.
  - destruct (String.eqb_spec k key) as [->|Hk]; simpl.
    + destruct (String.eqb key key'); reflexivity.
    + rewrite IH.
      destruct (String.eqb_spec k key') as [->|Hk'].
      * destruct (String.eqb_spec key key'); [congruence|reflexivity].
      * reflexivity.
Qed.

Lemma mapGet_app (key : string) (l1 l2 : AliasMap) :
  mapGet key (l1 ++ l2)%list
  = match mapGet key l1 with
    | Some v => Some v
    | None => mapGet key l2
    end.
Proof.
  induction l1 as [|[k v] l1 IH]; simpl; [reflexivity|].
  destruct (String.eqb k key); [reflexivity|apply IH].
Qed.

Lemma mapGet_fold (key : string) (pairs init : AliasMap) :
  mapGet key (fold_left setPair pairs init)
  = match lastValue key pairs with
    | Some v => Some v
    | None => mapGet key init
    end.
Proof.
  revert init. unfold lastValue.
  induction pairs as [|[k v] pairs IH]; intros init; [reflexivity|].
  simpl fold_left. rewrite IH. simpl rev. rewrite mapGet_app.
  destruct (mapGet key (rev pairs)); [reflexivity|].
  unfold setPair. simpl. rewrite mapGet_mapSet.
  destruct (String.eqb k key); reflexivity.
Qed.

Lemma mapGet_In (key : string) (map : AliasMap) :
  In key (List.map fst map) <-> mapGet key map <> None.
Proof.
  induction map as [|[k v] map IH]; simpl.
  - split; [tauto|congruence].
  - destruct (String.eqb_spec k key) as [->|Hk].
    + split; [discriminate|auto].
    + rewrite <- IH. split; [intros [H|H]; [congruence|auto]|auto].
Qed.

Lemma mapSet_fresh (key value : string) (map : AliasMap) :
  ~ In key (List.map fst map) -> mapSet key value map = (map ++ [(key, value)])%list.
Proof.
  induction map as [|[k v] map IH]; simpl; intros Hnot; [reflexivity|].
  destruct (String.eqb_spec k key) as [->|Hk]; [tauto|].
  rewrite IH by tauto. reflexivity.
Qed.

Lemma mapSet_keys_NoDup (key value : string) (map : AliasMap) :
  NoDup (List.map fst map) -> NoDup (List.map fst (mapSet key value map)).
Proof.
  induction map as [|[k v] map IH]; simpl; intros Hnd.
  - constructor; [tauto|constructor].
  - inversion Hnd as [|? ? Hnot Hnd']; subst.
    destruct (String.eqb_spec k key) as [->|Hk]; simpl.
    + constructor; assumption.
    + constructor; [|auto].
      intros Hin. apply mapGet_In in Hin. rewrite mapGet_mapSet in Hin.
      destruct (String.eqb_spec key k); [congruence|].
      apply mapGet_In in Hin. contradiction.
Qed.

Lemma fold_keys_NoDup (pairs init : AliasMap) :
  NoDup (List.map fst init) ->
  NoDup (List.map fst (fold_left setPair pairs init)).
Proof.
  revert init.
  induction pairs as [|kv pairs IH]; intros init Hnd; [assumption|].
  simpl. apply IH. apply mapSet_keys_NoDup; assumption.
Qed.

Lemma fold_distinct (pairs init : AliasMap) :
  NoDup (List.map fst (init ++ pairs)%list) ->
  fold_left setPair pairs init = (init ++ pairs)%list.
Proof.
  revert init.
  induction pairs as [|[k v] pairs IH]; intros init Hnd.
  - now rewrite app_nil_r.
  - simpl. unfold setPair at 2. simpl.
    rewrite mapSet_fresh.
    + rewrite IH; rewrite <- app_assoc; [reflexivity|exact Hnd].
    + rewrite map_app in Hnd. simpl in Hnd.
      apply NoDup_remove_2 in Hnd.
      intros Hin. apply Hnd. apply in_or_app. now left.
Qed.

Lemma mapSet_keys (key value : string) (map : AliasMap) :
  List.map fst (mapSet key value map)
  = if existsb (fun s => String.eqb s key) (List.map fst map)
    then List.map fst map
    else (List.map fst map ++ [key])%list.
Proof.
  induction map as [|[k v] map IH]; simpl; [reflexivity|].
  destruct (String.eqb k key); simpl; [reflexivity|].
  rewrite IH. now destruct (existsb _ (List.map fst map)).
Qed.

(** The keys of the map after the pairs are set: those it had, then the
    new ones in the order of their first occurrence. *)
Lemma fold_keys (pairs init : AliasMap) :
  List.map fst (fold_left setPair pairs init)
  = (List.map fst init
       ++ firstOccurrences (List.map fst init) (List.map fst pairs))%list.
Proof.
  revert init.
  induction pairs as [|[k v] pairs IH]; intros init.
  - simpl. now rewrite app_nil_r.
  - simpl fold_left. rewrite IH. unfold setPair. simpl fst. simpl snd.
    rewrite mapSet_keys. simpl List.map. simpl firstOccurrences.
    destruct (existsb (fun s => String.eqb s k) (List.map fst init));
      [reflexivity|].
    now rewrite <- app_assoc.
Qed.

End AliasTable.

(** C3. The prefix test of [findShortestAlias] is [startsWith] on the
    text of the paths: the target directory [/base/utils] does yield a
    candidate for the path [/base/utilsExtra/helpers], the alias
    [@utilsExtra/helpers], and the rule reports it as the shorter form of a
    relative import of that file. *)
Theorem C3_prefix_ignores_segment_boundary :
  findShortestAlias "/base/utilsExtra/helpers" "/base" [("/base/utils", "@utils")]
  = Some "@utilsExtra/helpers"
  /\ buildAliasMap "/fx" "/fx" Fixture.utilsPaths = [("/fx/utils", "@utils")]
  /\ List.map shorter
       (lint (Fixture.hostOf [] Fixture.utilsPaths) "/fx/app/deep/main.ts"
          defaultOptions (Fixture.doubleQuoted "../../utilsExtra/helpers"))
     = ["@utilsExtra/helpers"].
Proof. repeat split; reflexivity. Qed.

(** C4, as stated, fails: of two aliases of one directory the table keeps
    the later one only, and the resolver then answers with it although the
    other has fewer segments. *)
Lemma C4_shared_target_keeps_last_alias :
  aliasPairs "/base" "/base" Fixture.sharedTargetPaths
  = [("/base/lib", "@a"); ("/base/lib", "@/b")]
  /\ buildAliasMap "/base" "/base" Fixture.sharedTargetPaths
     = [("/base/lib", "@/b")]
  /\ ~ In ("/base/lib", "@a")
          (buildAliasMap "/base" "/base" Fixture.sharedTargetPaths)
  /\ findShortestAlias "/base/lib/foo" "/base"
       (buildAliasMap "/base" "/base" Fixture.sharedTargetPaths)
     = Some "@/b/foo"
  /\ countSegments "@a/foo" < countSegments "@/b/foo".
Proof.
  repeat split; try reflexivity.
  - intros [H|[]]. inversion H.
  - vm_compute. lia.
Qed.

(** C4, amended. The alias table is a map keyed by the absolute target
    directory: its keys are the distinct targets of the configuration, each
    once, in the order of their first occurrence; the alias of a target is
    the one of the last (alias, target) pair that resolves to it; and when
    all pairs resolve to different targets the table is the list of the
    pairs in configuration order. *)
Theorem C4_alias_table_keyed_by_target :
  forall (cwd baseUrl : string) (paths : list (string * list string)),
    let table := buildAliasMap cwd baseUrl paths in
    let pairs := aliasPairs cwd baseUrl paths in
    List.map fst table = firstOccurrences [] (List.map fst pairs)
    /\ NoDup (List.map fst table)
    /\ (forall target, mapGet target table = lastValue target pairs)
    /\ (forall target,
           In target (List.map fst table) <-> In target (List.map fst pairs))
    /\ (NoDup (List.map fst pairs) -> table = pairs).
Proof.
  intros cwd baseUrl paths table pairs. subst table pairs.
  rewrite buildAliasMap_pairs.
  assert (forall target,
             mapGet target
               (fold_left (fun map kv => mapSet (fst kv) (snd kv) map)
                  (aliasPairs cwd baseUrl paths) [])
             = lastValue target (aliasPairs cwd baseUrl paths)) as Hget.
  { intros target. rewrite mapGet_fold.
    destruct (lastValue target (aliasPairs cwd baseUrl paths)); reflexivity. }
  split; [|split; [|split; [|split]]].
  - apply (fold_keys (aliasPairs cwd baseUrl paths) []).
  - apply fold_keys_NoDup. constructor.
  - exact Hget.
  - intros target. rewrite mapGet_In, Hget. unfold lastValue.
    rewrite <- mapGet_In, map_rev, <- in_rev. reflexivity.
  - intros Hnd. apply (fold_distinct _ []). exact Hnd.
Qed.

(** With the aliases [@], [@components] and [@utils] of three different
    directories the table is the list of the three pairs; with the target
    [lib] set three times, by [@a], [@b] and [@c], and the target [src] set
    in between, the table holds [lib] once, before [src], with the alias
    [@c] set last. *)
Lemma C4_alias_table_keyed_by_target_witness :
  buildAliasMap "/fx" "/fx" Fixture.paths = aliasPairs "/fx" "/fx" Fixture.paths
  /\ List.map fst (buildAliasMap "/base" "/base" Fixture.repeatedTargetPaths)
     = ["/base/lib"; "/base/src"]
  /\ mapGet "/base/lib"
       (buildAliasMap "/base" "/base" Fixture.repeatedTargetPaths)
     = Some "@c".
Proof.
  split; [|split].
  - apply (C4_alias_table_keyed_by_target "/fx" "/fx" Fixture.paths).
    vm_compute. repeat constructor; simpl; intuition discriminate.
  - exact (proj1 (C4_alias_table_keyed_by_target "/base" "/base"
                    Fixture.repeatedTargetPaths)).
  - exact (proj1 (proj2 (proj2 (C4_alias_table_keyed_by_target "/base" "/base"
                                  Fixture.repeatedTargetPaths)))
             "/base/lib").
Defined.

(** *** Ties *)

(** C5. The rule has no tie-break option: its options hold the
    configuration path only, and on a tie it makes no report whatever the
    options are.  From [/fx/src/components] the alias form
    [@/features/auth/login] and its relative form both have 4 segments;
    from [/fx/src] the relative form [./utils/helpers] and its alias form
    both have 2. *)
Theorem C5_tie_is_kept_under_every_option :
  forall options : Options,
    alternative "/fx" "/fx/src/components" "/fx"
      Fixture.matchPath Fixture.aliasMap
      "@/features/auth/login" = Some "../features/auth/login"
    /\ countSegments "../features/auth/login"
       = countSegments "@/features/auth/login"
    /\ lint Fixture.host "/fx/src/components/Button.ts" options
         (Fixture.doubleQuoted "@/features/auth/login") = []
    /\ alternative "/fx" "/fx/src" "/fx" Fixture.matchPath Fixture.aliasMap
         "./utils/helpers" = Some "@utils/helpers"
    /\ countSegments "@utils/helpers" = countSegments "./utils/helpers"
    /\ lint Fixture.host "/fx/src/main.ts" options
         (Fixture.doubleQuoted "./utils/helpers") = [].
Proof.
  intros options.
  repeat split; reflexivity.
Qed.

(** *** The disk *)

(** The listener consults [matchPath] at the specifier only, and only for a
    specifier that is not relative. *)
Lemma ImportDeclaration_matchPath (cwd fileDir absoluteBaseUrl : string)
    (matchPath1 matchPath2 : MatchPath) (aliasMap : AliasMap)
    (specifier raw : string) :
  Js.startsWith specifier "." = true
  \/ matchPath1 specifier None None (Some extensions)
     = matchPath2 specifier None None (Some extensions) ->
  ImportDeclaration cwd fileDir absoluteBaseUrl matchPath1 aliasMap
    (importOf specifier raw)
  = ImportDeclaration cwd fileDir absoluteBaseUrl matchPath2 aliasMap
      (importOf specifier raw).
Proof.
  intros H. rewrite !ImportDeclaration_alternative. unfold alternative.
  destruct (Js.startsWith specifier ".") eqn:Hrel; [reflexivity|].
  destruct H as [H|H]; [discriminate|]. now rewrite H.
Qed.

(** C6, as stated, fails: with the same file, specifier and alias
    configuration, the import [@/components/Button] is reported when
    [Button.ts] is on the disk and is not when the disk is empty. *)
Lemma C6_verdict_depends_on_disk :
  List.map shorter
    (lint (Fixture.hostOf Fixture.files Fixture.paths)
       "/fx/src/components/App.ts" defaultOptions
       (Fixture.doubleQuoted "@/components/Button"))
  = ["./Button"]
  /\ lint (Fixture.hostOf [] Fixture.paths)
       "/fx/src/components/App.ts" defaultOptions
       (Fixture.doubleQuoted "@/components/Button")
     = [].
Proof. split; reflexivity. Qed.

(** What [findFirstExistingPath] returns depends on the disk through its
    answers about the tried paths only. *)
Lemma findFirstExistingPath_agree (d1 d2 : Filesystem)
    (tryPaths : list TryPath) :
  Forall (agreeOn d1 d2) tryPaths ->
  findFirstExistingPath tryPaths (readJsonFromDiskSync d1) (fileExistsSync d1)
  = findFirstExistingPath tryPaths (readJsonFromDiskSync d2) (fileExistsSync d2).
Proof.
  induction 1 as [|tryPath rest Hagree _ IH]; [reflexivity|].
  simpl. unfold agreeOn in Hagree.
  destruct (type tryPath);
    try (rewrite Hagree, IH; reflexivity).
  destruct Hagree as [Hread Hmain]. rewrite <- Hread.
  destruct (readJsonFromDiskSync d1 (path tryPath)) as [packageJson|];
    [|exact IH].
  unfold findFirstExistingMainFieldMappedFile.
  destruct (Js.truthy (main packageJson)) as [candidateMapping|] eqn:Hcand;
    [|exact IH].
  rewrite <- (Hmain packageJson candidateMapping eq_refl Hcand).
  now rewrite IH.
Qed.

Lemma createMatchPath_agree (d1 d2 : Filesystem) (cwd absoluteBaseUrl : string)
    (paths : list (string * list string)) (specifier : string) :
  Forall (agreeOn d1 d2) (triedPaths cwd absoluteBaseUrl paths specifier) ->
  createMatchPath d1 cwd absoluteBaseUrl paths specifier None None
    (Some extensions)
  = createMatchPath d2 cwd absoluteBaseUrl paths specifier None None
      (Some extensions).
Proof.
  unfold createMatchPath, triedPaths.
  destruct (getPathsToTry extensions _ specifier); [|reflexivity].
  apply findFirstExistingPath_agree.
Qed.

(** C6, amended. The analysis of a relative specifier does not depend on
    the disk: two hosts that differ in their disks only give the same
    reports.  The analysis of any other specifier reads the disk through
    [matchPath], called with [fileExists] left undefined, and depends on
    the disk through the checks of the tried candidates only: two hosts
    whose disks agree on the paths [matchPath] tries for the specifier
    (whether each file, extension and index candidate is there, what each
    [package.json] candidate holds and whether the file its [main] names is
    there) give the same reports, however else the disks differ. *)
Theorem C6_disk_matters_through_matchPath_only :
  forall (cwd : string) (loadConfig : string -> ConfigLoaderResult)
         (d1 d2 : Filesystem) (filename : string) (options : Options)
         (specifier raw : string),
    let h1 := {| cwd := cwd; disk := d1; loadConfig := loadConfig |} in
    let h2 := {| cwd := cwd; disk := d2; loadConfig := loadConfig |} in
    (Js.startsWith specifier "." = true ->
     lint h1 filename options (importOf specifier raw)
     = lint h2 filename options (importOf specifier raw))
    /\ ((forall absoluteBaseUrl paths,
            loadConfig (configPath h1 options)
            = ConfigLoaderSuccessResult absoluteBaseUrl paths ->
            Forall (agreeOn d1 d2)
              (triedPaths cwd absoluteBaseUrl paths specifier)) ->
        lint h1 filename options (importOf specifier raw)
        = lint h2 filename options (importOf specifier raw)).
Proof.
  intros cwd loadConfig d1 d2 filename options specifier raw h1 h2.
  subst h1 h2. unfold lint, create, configPath. cbn [ShortestImport.cwd
    ShortestImport.disk ShortestImport.loadConfig].
  split; intros H;
    (destruct (loadConfig _) as [msg|base paths] eqn:Hload; [reflexivity|]).
  - rewrite (ImportDeclaration_matchPath cwd (Path.dirname filename) base
               (createMatchPath d1 cwd base paths)
               (createMatchPath d2 cwd base paths)); auto.
  - rewrite (ImportDeclaration_matchPath cwd (Path.dirname filename) base
               (createMatchPath d1 cwd base paths)
               (createMatchPath d2 cwd base paths)); auto.
    right. apply createMatchPath_agree. now apply H.
Qed.

(** The relative import [../utils/helpers] is reported alike with the
    fixture's files on the disk and with an empty disk; the import
    [@/components/Button] is reported alike on the fixture's disk and on a
    disk that holds one more file, which is none of the paths tried. *)
Lemma C6_disk_matters_through_matchPath_only_witness :
  lint (Fixture.hostOf Fixture.files Fixture.paths)
    "/fx/src/components/Button.ts" defaultOptions
    (importOf "../utils/helpers" "../utils/helpers")
  = lint (Fixture.hostOf [] Fixture.paths)
      "/fx/src/components/Button.ts" defaultOptions
      (importOf "../utils/helpers" "../utils/helpers")
  /\ lint (Fixture.hostOf Fixture.files Fixture.paths)
       "/fx/src/components/App.ts" defaultOptions
       (importOf "@/components/Button" "@/components/Button")
     = lint (Fixture.hostOf ("/fx/src/unrelated/Other.ts" :: Fixture.files)
               Fixture.paths)
         "/fx/src/components/App.ts" defaultOptions
         (importOf "@/components/Button" "@/components/Button").
Proof.
  split.
  - apply (proj1 (C6_disk_matters_through_matchPath_only "/fx"
                    (fun _ => ConfigLoaderSuccessResult "/fx" Fixture.paths)
                    (Fixture.diskOf Fixture.files) (Fixture.diskOf [])
                    "/fx/src/components/Button.ts" defaultOptions
                    "../utils/helpers" "../utils/helpers")).
    reflexivity.
  - apply (proj2 (C6_disk_matters_through_matchPath_only "/fx"
                    (fun _ => ConfigLoaderSuccessResult "/fx" Fixture.paths)
                    (Fixture.diskOf Fixture.files)
                    (Fixture.diskOf
                       ("/fx/src/unrelated/Other.ts" :: Fixture.files))
                    "/fx/src/components/App.ts" defaultOptions
                    "@/components/Button" "@/components/Button")).
    intros base paths Hload. inversion Hload; subst base paths.
    vm_compute.
    repeat (first [apply Forall_nil | apply Forall_cons]);
      first [reflexivity
            | split; [reflexivity | intros pj cm Hread; discriminate Hread]].
Defined.

(** *** Rewrites of rewrites *)

Section Chains.

Variables (cwd fileDir absoluteBaseUrl : string).
Variables (matchPath : MatchPath) (aliasMap : AliasMap).

Let verdict' := verdict cwd fileDir absoluteBaseUrl matchPath aliasMap.
Let Rewrites' := Rewrites cwd fileDir absoluteBaseUrl matchPath aliasMap.

(** A replacement has strictly fewer segments than what it replaces. *)
Lemma Replace_decreases (s a : string) :
  verdict' s = Replace a -> countSegments a < countSegments s.
Proof.
  unfold verdict', verdict. rewrite ImportDeclaration_alternative.
  destruct (alternative _ _ _ _ _ s) as [a0|]; [|discriminate].
  destruct (Nat.ltb_spec (countSegments a0) (countSegments s)) as [Hlt|Hge];
    [|discriminate].
  simpl. intros Heq; inversion Heq; subst; assumption.
Qed.

(** Along a chain of rewrites every specifier has fewer segments than
    the chain's origin, and the chain is no longer than the origin's
    segment count. *)
Lemma Rewrites_bound (s : string) (chain : list string) :
  Rewrites' s chain ->
  Forall (fun x => countSegments x < countSegments s) chain
  /\ List.length chain <= countSegments s.
Proof.
  induction 1 as [s|s a rest Hv Hrest [IHall IHlen]].
  - split; [constructor|apply Nat.le_0_l].
  - apply Replace_decreases in Hv. split.
    + constructor; [assumption|].
      eapply Forall_impl; [|exact IHall]. simpl; intros; lia.
    + simpl; lia.
Qed.

End Chains.

(** C7, as stated, fails: from [/fx/src/components] the relative import
    [../components/Button] is replaced by [@components/Button], and that
    alias, analysed again from the same directory with the same table, is
    replaced in turn, by [./Button].  Likewise, from [/fx/src/components/y]
    the alias [@/components/x/Button] is replaced by [../x/Button], which is
    replaced in turn by the shorter alias [@x/Button]. *)
Lemma C7_replacement_is_replaced_again :
  verdict "/fx" "/fx/src/components" "/fx" Fixture.matchPath Fixture.aliasMap
    "../components/Button" = Replace "@components/Button"
  /\ verdict "/fx" "/fx/src/components" "/fx" Fixture.matchPath Fixture.aliasMap
       "@components/Button" = Replace "./Button"
  /\ verdict "/fx" "/fx/src/components" "/fx" Fixture.matchPath Fixture.aliasMap
       "@components/Button" <> Keep
  /\ verdict "/fx" "/fx/src/components/y" "/fx"
       Fixture.nestedMatchPath Fixture.nestedAliasMap
       "@/components/x/Button" = Replace "../x/Button"
  /\ verdict "/fx" "/fx/src/components/y" "/fx"
       Fixture.nestedMatchPath Fixture.nestedAliasMap
       "../x/Button" = Replace "@x/Button".
Proof. repeat split; try reflexivity. discriminate. Qed.

(** C7, amended. Every [Replace] strictly lowers the segment count, so
    rewrites cannot oscillate: along any chain of rewrites that starts at a
    specifier, each later specifier has fewer segments than the first, the
    first never comes back, and the chain has at most as many steps as the
    first specifier has segments.  (The replacement itself may be replaced
    again, by a still shorter form.) *)
Theorem C7_rewrites_strictly_decrease :
  forall (cwd fileDir absoluteBaseUrl : string) (matchPath : MatchPath)
         (aliasMap : AliasMap) (s : string) (chain : list string),
    Rewrites cwd fileDir absoluteBaseUrl matchPath aliasMap s chain ->
    Forall (fun x => countSegments x < countSegments s) chain
    /\ ~ In s chain
    /\ List.length chain <= countSegments s.
Proof.
  intros cwd fileDir base matchPath aliasMap s chain H.
  apply Rewrites_bound in H as [Hall Hlen].
  split; [assumption|]. split; [|assumption].
  intros Hin. rewrite Forall_forall in Hall.
  specialize (Hall s Hin). lia.
Qed.

(** The chain [../components/Button], [@components/Button], [./Button] of
    the fixture: 3, 2 and 1 segments. *)
Lemma C7_rewrites_strictly_decrease_witness :
  Forall (fun x => countSegments x < countSegments "../components/Button")
    ["@components/Button"; "./Button"]
  /\ ~ In "../components/Button" ["@components/Button"; "./Button"]
  /\ List.length ["@components/Button"; "./Button"]
     <= countSegments "../components/Button".
Proof.
  apply (C7_rewrites_strictly_decrease "/fx" "/fx/src/components" "/fx"
           Fixture.matchPath Fixture.aliasMap).
  apply RewritesCons; [reflexivity|].
  apply RewritesCons; [reflexivity|].
  apply RewritesNil.
Defined.

(** *** Configuration that cannot be used *)

(** C8, as stated, fails for a configuration without path mappings: it
    loads, its alias table is empty, and [matchPath] still resolves a
    specifier under the base directory, so that the import
    [src/components/Button] written in [/fx/src/components/App.ts] is
    reported, with [./Button] as the shorter form. *)
Lemma C8_no_mappings_still_reports :
  buildAliasMap "/fx" "/fx" [] = []
  /\ List.map shorter
       (lint (Fixture.hostOf Fixture.files []) "/fx/src/components/App.ts"
          defaultOptions (Fixture.doubleQuoted "src/components/Button"))
     = ["./Button"].
Proof. split; reflexivity. Qed.

(** C8, amended. When [loadConfig] fails, [create] returns no listener and
    the rule makes no report, for every file and every import declaration.
    When the configuration loads without path mappings, no relative
    specifier is reported.  [create], the listener and [lint] are total
    functions: they return for every input. *)
Theorem C8_failed_configuration_is_a_no_op :
  forall (host : Host) (filename : string) (options : Options),
    (forall message,
        loadConfig host (configPath host options)
        = ConfigLoaderFailResult message ->
        create host filename options = None
        /\ forall node, lint host filename options node = [])
    /\ (forall absoluteBaseUrl,
           loadConfig host (configPath host options)
           = ConfigLoaderSuccessResult absoluteBaseUrl [] ->
           forall specifier raw,
             Js.startsWith specifier "." = true ->
             lint host filename options (importOf specifier raw) = []).
Proof.
  intros host filename options. split.
  - intros message H. unfold lint, create. rewrite H. auto.
  - intros base H specifier raw Hrel. unfold lint, create. rewrite H.
    rewrite ImportDeclaration_alternative. unfold alternative.
    rewrite Hrel. reflexivity.
Qed.

(** A host whose configuration cannot be loaded, and one whose
    configuration has no path mappings. *)
Lemma C8_failed_configuration_is_a_no_op_witness :
  lint {| cwd := "/fx"; disk := Fixture.diskOf Fixture.files;
          loadConfig := fun _ => ConfigLoaderFailResult "failed" |}
    "/fx/src/components/App.ts" defaultOptions
    (Fixture.doubleQuoted "@/components/Button") = []
  /\ lint (Fixture.hostOf Fixture.files []) "/fx/src/components/App.ts"
       defaultOptions (importOf "../utils/helpers" "../utils/helpers") = [].
Proof.
  split.
  - apply (proj1 (C8_failed_configuration_is_a_no_op
                    {| cwd := "/fx"; disk := Fixture.diskOf Fixture.files;
                       loadConfig := fun _ => ConfigLoaderFailResult "failed" |}
                    "/fx/src/components/App.ts" defaultOptions) "failed").
    reflexivity.
  - apply (proj2 (C8_failed_configuration_is_a_no_op
                    (Fixture.hostOf Fixture.files [])
                    "/fx/src/components/App.ts" defaultOptions) "/fx");
      reflexivity.
Defined.

(** *** Segment counts of the forms the rule handles *)

Lemma startsWith_app (p s : string) :
  Js.startsWith s p = true -> s = p ++ Js.slice (String.length p) s.
Proof.
  revert s. induction p as [|a p IH]; intros s H.
  - simpl. now rewrite slice_0.
  - destruct s as [|b s]; [discriminate|].
    simpl in H. apply andb_prop in H as [Hb Hp].
    apply Ascii.eqb_eq in Hb. subst b.
    simpl String.length. rewrite slice_cons. simpl. f_equal. now apply IH.
Qed.

(** The leading [./] that [countSegments] strips is a segment it would
    not count: the count is that of the counted segments of the whole
    specifier. *)
Lemma countSegments_split (s : string) :
  countSegments s = List.length (filter counted (Js.split "/" s)).
Proof.
  destruct (Js.startsWith s "./") eqn:Hpre.
  - apply startsWith_app in Hpre. rewrite Hpre at 1 2.
    unfold countSegments. rewrite dropPrefix_dot_slash.
    change (String.length "./") with 2.
    change ("./" ++ Js.slice 2 s) with ("." ++ "/" ++ Js.slice 2 s).
    rewrite split_segment_slash by reflexivity. reflexivity.
  - unfold countSegments, Js.dropPrefix. rewrite Hpre. reflexivity.
Qed.




(** *** The fix *)

(** C10, as stated, fails: for an import written in single quotes the fix
    replaces the literal [node.source] with text in double quotes. *)
Lemma C10_single_quoted_import_gets_double_quotes :
  List.map (fun r => (raw (replaced (fix_ r)), text (fix_ r)))
    (lint Fixture.host "/fx/src/components/Button.ts" defaultOptions
       (Fixture.singleQuoted "../utils/helpers"))
  = [("'../utils/helpers'",
      String Js.dquote ("@utils/helpers" ++ String Js.dquote ""))]
  /\ Js.squote <> Js.dquote.
Proof. split; [reflexivity|discriminate]. Qed.

(** C10, amended. On every report the fix replaces the literal
    [node.source] of the import with the reported shorter specifier
    between double quotes, whatever the quotes of the original are. *)
Theorem C10_fix_is_double_quoted :
  forall (cwd fileDir absoluteBaseUrl : string) (matchPath : MatchPath)
         (aliasMap : AliasMap) (node : ImportDeclarationNode)
         (r : ReportDescriptor),
    ImportDeclaration cwd fileDir absoluteBaseUrl matchPath aliasMap node
    = Some r ->
    replaced (fix_ r) = source node
    /\ text (fix_ r) = String Js.dquote (shorter r ++ String Js.dquote "")
    /\ ShortestImport.node r = source node
    /\ messageId r = "shorterImportAvailable".
Proof.
  intros cwd fileDir base matchPath aliasMap node r.
  destruct node as [[[specifier|] raw]]; [|discriminate].
  change {| source := {| value := StringValue specifier; raw := raw |} |}
    with (importOf specifier raw).
  rewrite ImportDeclaration_alternative.
  destruct (alternative cwd fileDir base matchPath aliasMap specifier);
    [|discriminate].
  destruct (Nat.ltb _ _); [|discriminate].
  intros H; inversion H; subst. repeat split; reflexivity.
Qed.

(** The report on the single-quoted import [../utils/helpers] of the
    fixture. *)
Lemma C10_fix_is_double_quoted_witness :
  replaced
    (fix_ (shorterImportAvailable (Fixture.singleQuoted "../utils/helpers")
             "@utils/helpers" 2 3))
  = source (Fixture.singleQuoted "../utils/helpers")
  /\ text
       (fix_ (shorterImportAvailable (Fixture.singleQuoted "../utils/helpers")
                "@utils/helpers" 2 3))
     = String Js.dquote ("@utils/helpers" ++ String Js.dquote "")
  /\ ShortestImport.node
       (shorterImportAvailable (Fixture.singleQuoted "../utils/helpers")
          "@utils/helpers" 2 3)
     = source (Fixture.singleQuoted "../utils/helpers")
  /\ messageId
       (shorterImportAvailable (Fixture.singleQuoted "../utils/helpers")
          "@utils/helpers" 2 3)
     = "shorterImportAvailable".
Proof.
  apply (C10_fix_is_double_quoted "/fx" "/fx/src/components" "/fx"
           Fixture.matchPath Fixture.aliasMap).
  reflexivity.
Defined.

(* ================================================================== *)
(** ** Further properties of the rule's functions *)
(* ================================================================== *)

Import Resolver.

(** *** Strings: lengths, prefixes and suffixes *)

Lemma length_app (a b : string) :
  String.length (a ++ b) = String.length a + String.length b.
Proof. induction a as [|c a IH]; simpl; [reflexivity|now rewrite IH]. Qed.



Lemma startsWith_app_intro (p s : string) : Js.startsWith (p ++ s) p = true.
Proof.
  induction p as [|a p IH]; [reflexivity|].
  simpl. now rewrite Ascii.eqb_refl, IH.
Qed.

Lemma slice_app_right (a b : string) (n : nat) :
  String.length a <= n -> Js.slice n (a ++ b) = Js.slice (n - String.length a) b.
Proof.
  revert n. induction a as [|c a IH]; intros n Hn.
  - simpl. now rewrite Nat.sub_0_r.
  - destruct n as [|n]; [simpl in Hn; lia|].
    simpl String.append. rewrite slice_cons. simpl String.length.
    apply IH. simpl in Hn. lia.
Qed.

Lemma slice_app_length (a b : string) : Js.slice (String.length a) (a ++ b) = b.
Proof.
  rewrite slice_app_right by lia. rewrite Nat.sub_diag. apply slice_0.
Qed.

Lemma substring_app_length (a b : string) :
  substring 0 (String.length a) (a ++ b) = a.
Proof. induction a as [|c a IH]; simpl; [now destruct b|now rewrite IH]. Qed.

(** Whether [s ++ q] ends with [p] is decided by [q] once [q] is at least
    as long as [p]. *)
Lemma endsWith_app_right (s q p : string) :
  String.length p <= String.length q ->
  Js.endsWith (s ++ q) p = Js.endsWith q p.
Proof.
  intros Hlen. unfold Js.endsWith. rewrite length_app.
  rewrite slice_app_right by lia.
  replace (String.length s + String.length q - String.length p - String.length s)
    with (String.length q - String.length p) by lia.
  replace (Nat.leb (String.length p) (String.length s + String.length q))
    with true by (symmetry; apply Nat.leb_le; lia).
  replace (Nat.leb (String.length p) (String.length q))
    with true by (symmetry; apply Nat.leb_le; lia).
  reflexivity.
Qed.

Lemma endsWith_app_same (s p : string) : Js.endsWith (s ++ p) p = true.
Proof.
  rewrite endsWith_app_right by lia.
  unfold Js.endsWith. rewrite Nat.leb_refl, Nat.sub_diag, slice_0.
  apply String.eqb_refl.
Qed.

Lemma dropSuffix_app (s p : string) : Js.dropSuffix p (s ++ p) = s.
Proof.
  unfold Js.dropSuffix. rewrite endsWith_app_same, length_app.
  replace (String.length s + String.length p - String.length p)
    with (String.length s) by lia.
  apply substring_app_length.
Qed.

Lemma substring_slice (x : string) (n : nat) :
  n <= String.length x -> substring 0 n x ++ Js.slice n x = x.
Proof.
  revert n. induction x as [|c x IH]; intros n Hn.
  - simpl in Hn. now replace n with 0 by lia.
  - destruct n as [|n].
    + simpl. now rewrite slice_0.
    + rewrite slice_cons. simpl. f_equal. apply IH. simpl in Hn. lia.
Qed.

(** A string that ends with [p] is some text followed by [p]. *)
Lemma endsWith_inv (x p : string) :
  Js.endsWith x p = true ->
  x = substring 0 (String.length x - String.length p) x ++ p.
Proof.
  unfold Js.endsWith. intros H. apply andb_prop in H as [_ H].
  apply String.eqb_eq in H.
  pose proof (substring_slice x (String.length x - String.length p)) as Hx.
  rewrite H in Hx. symmetry. apply Hx. lia.
Qed.

(** Of two suffixes of one string the shorter is a suffix of the longer. *)
Lemma endsWith_nested (x p q : string) :
  Js.endsWith x p = true -> Js.endsWith x q = true ->
  String.length q <= String.length p -> Js.endsWith p q = true.
Proof.
  intros Hp Hq Hlen. apply endsWith_inv in Hp.
  rewrite Hp in Hq. now rewrite endsWith_app_right in Hq.
Qed.

(** *** Source extensions *)

(** X1. [replace(/\.(ts|tsx|js|jsx)$/, "")] removes a final [.ts], [.tsx],
    [.js] or [.jsx] whole, and nothing before it: whatever [s] is, also when
    [s] ends with an extension itself, the text [s] followed by one of the
    four extensions is brought back to [s]. *)
Theorem dropSourceExtension_app :
  forall (s ext : string),
    In ext [".ts"; ".tsx"; ".js"; ".jsx"] ->
    dropSourceExtension (s ++ ext) = s.
Proof.
  intros s ext Hin.
  assert (forall other,
             In other [".ts"; ".tsx"; ".js"; ".jsx"] ->
             Js.endsWith (s ++ ext) other = true -> other = ext) as Honly.
  { intros other Hother Hends.
    pose proof (endsWith_app_same s ext) as Hext.
    destruct (Nat.le_ge_cases (String.length other) (String.length ext))
      as [Hle|Hle].
    - pose proof (endsWith_nested _ _ _ Hext Hends Hle) as H.
      simpl in Hin, Hother.
      destruct Hin as [<-|[<-|[<-|[<-|[]]]]];
        destruct Hother as [<-|[<-|[<-|[<-|[]]]]];
        solve [reflexivity | discriminate H].
    - pose proof (endsWith_nested _ _ _ Hends Hext Hle) as H.
      simpl in Hin, Hother.
      destruct Hin as [<-|[<-|[<-|[<-|[]]]]];
        destruct Hother as [<-|[<-|[<-|[<-|[]]]]];
        solve [reflexivity | discriminate H]. }
  unfold dropSourceExtension.
  destruct (find (Js.endsWith (s ++ ext)) [".ts"; ".tsx"; ".js"; ".jsx"])
    as [other|] eqn:Hfind.
  - apply find_some in Hfind as [Hother Hends].
    rewrite (Honly other Hother Hends). apply dropSuffix_app.
  - exfalso.
    pose proof (find_none _ _ Hfind ext Hin) as H.
    rewrite endsWith_app_same in H. discriminate.
Qed.

(** [foo.test.tsx] loses [.tsx] only. *)
Lemma dropSourceExtension_app_witness :
  dropSourceExtension ("/fx/src/foo.test" ++ ".tsx") = "/fx/src/foo.test".
Proof.
  apply dropSourceExtension_app. simpl. auto.
Defined.

(** Stripping the source extension and a trailing [/index] takes a
    prefix: an empty-or-dotted string stays so. *)
Lemma substring_emptyOrDot (s : string) (n : nat) :
  emptyOrDot s -> emptyOrDot (substring 0 n s).
Proof.
  intros [->|H].
  - left. now destruct n.
  - destruct s as [|c s]; [discriminate|].
    destruct n as [|n]; [now left|].
    right. simpl in *. now rewrite andb_true_r in *.
Qed.

Lemma dropSuffix_emptyOrDot (p s : string) :
  emptyOrDot s -> emptyOrDot (Js.dropSuffix p s).
Proof.
  intros H. unfold Js.dropSuffix.
  destruct (Js.endsWith s p); [now apply substring_emptyOrDot|assumption].
Qed.

Lemma dropSourceExtension_emptyOrDot (s : string) :
  emptyOrDot s -> emptyOrDot (dropSourceExtension s).
Proof.
  intros H. unfold dropSourceExtension.
  destruct (find _ _); [now apply dropSuffix_emptyOrDot|assumption].
Qed.

(** *** The relative form *)

(** X2. What [toRelativeImport] returns is the empty string or starts with
    a dot, whatever the two paths are: a relative form that is not empty is
    a relative specifier for the rule ([source.startsWith(".")]). *)
Theorem toRelativeImport_empty_or_relative :
  forall (cwd fromDir toAbsolute : string),
    toRelativeImport cwd fromDir toAbsolute = ""
    \/ Js.startsWith (toRelativeImport cwd fromDir toAbsolute) "." = true.
Proof.
  intros cwd fromDir toAbsolute. unfold toRelativeImport.
  apply dropSuffix_emptyOrDot, dropSourceExtension_emptyOrDot.
  destruct (Js.startsWith (Path.relative cwd fromDir toAbsolute) ".") eqn:H;
    right; [exact H|reflexivity].
Qed.

(** *** The alias resolver *)

Section ShortestAlias.

Variable normalized : string.

Lemma considerAlias_unfold (state : option string * option nat)
    (entry : string * string) :
  considerAlias normalized state entry
  = if matches normalized entry then
      if belowShortest (countSegments (candidateOf normalized entry)) (snd state)
      then (Some (candidateOf normalized entry),
            Some (countSegments (candidateOf normalized entry)))
      else state
    else state.
Proof. destruct entry; reflexivity. Qed.

(** What the loop of [findShortestAlias] has established after the
    entries [seen]: nothing matched yet, or the state holds the candidate of
    the first entry whose candidate has the fewest segments among the
    matching ones. *)
Let Best (seen : AliasMap) (state : option string * option nat) : Prop :=
  match state with
  | (None, None) => forall e, In e seen -> matches normalized e = false
  | (Some a, Some n) =>
      n = countSegments a
      /\ exists before entry after,
          seen = (before ++ entry :: after)%list
          /\ matches normalized entry = true
          /\ candidateOf normalized entry = a
          /\ (forall e, In e before -> matches normalized e = true ->
                        n < countSegments (candidateOf normalized e))
          /\ (forall e, In e after -> matches normalized e = true ->
                        n <= countSegments (candidateOf normalized e))
  | _ => False
  end.

Lemma considerAlias_Best (seen : AliasMap)
    (state : option string * option nat) (entry : string * string) :
  Best seen state ->
  Best (seen ++ [entry])%list (considerAlias normalized state entry).
Proof.
  intros HB. rewrite considerAlias_unfold.
  destruct (matches normalized entry) eqn:Hm.
  - destruct state as [[a|] [n|]]; simpl in HB; try contradiction.
    + destruct HB as (-> & before & best & after & -> & Hbm & Hbc & Hlt & Hle).
      simpl snd. unfold belowShortest.
      destruct (Nat.ltb_spec (countSegments (candidateOf normalized entry))
                  (countSegments a)) as [Hless|Hmore].
      * simpl. split; [reflexivity|].
        exists (before ++ best :: after)%list, entry, [].
        repeat split; auto.
        -- intros e Hin Hem. apply in_app_or in Hin as [Hin|[<-|Hin]].
           ++ specialize (Hlt e Hin Hem). lia.
           ++ rewrite Hbc. lia.
           ++ specialize (Hle e Hin Hem). lia.
        -- intros e [].
      * simpl. split; [reflexivity|].
        exists before, best, (after ++ [entry])%list.
        repeat split; auto.
        -- now rewrite <- app_assoc.
        -- intros e Hin Hem. apply in_app_or in Hin as [Hin|[<-|[]]]; auto.
    + simpl. split; [reflexivity|].
      exists seen, entry, []. repeat split; auto.
      * intros e Hin Hem. rewrite (HB e Hin) in Hem. discriminate.
      * intros e [].
  - destruct state as [[a|] [n|]]; simpl in *; try contradiction.
    + destruct HB as (-> & before & best & after & -> & Hbm & Hbc & Hlt & Hle).
      split; [reflexivity|].
      exists before, best, (after ++ [entry])%list.
      repeat split; auto.
      * now rewrite <- app_assoc.
      * intros e Hin Hem. apply in_app_or in Hin as [Hin|[<-|[]]]; auto.
        rewrite Hm in Hem. discriminate.
    + intros e Hin. apply in_app_or in Hin as [Hin|[<-|[]]]; auto.
Qed.

Lemma fold_considerAlias_Best (aliasMap : AliasMap) :
  Best aliasMap (fold_left (considerAlias normalized) aliasMap (None, None)).
Proof.
  induction aliasMap as [|entry seen IH] using rev_ind.
  - simpl. intros e [].
  - rewrite fold_left_app. simpl. now apply considerAlias_Best.
Qed.

End ShortestAlias.

(** [findShortestAlias] returns [null] exactly when no entry matches. *)
Lemma findShortestAlias_null :
  forall (absolutePath baseUrl : string) (aliasMap : AliasMap),
    findShortestAlias absolutePath baseUrl aliasMap = None
    <-> (forall entry, In entry aliasMap ->
                       Js.startsWith (dropSourceExtension absolutePath)
                         (fst entry) = false).
Proof.
  intros absolutePath baseUrl aliasMap. unfold findShortestAlias.
  pose proof (fold_considerAlias_Best (dropSourceExtension absolutePath)
                aliasMap) as HB.
  destruct (fold_left _ aliasMap (None, None)) as [[a|] [n|]];
    simpl in HB; try contradiction; simpl.
  - destruct HB as (_ & before & best & after & -> & Hbm & _).
    split; [discriminate|].
    intros H. specialize (H best (in_elt best before after)).
    unfold matches in Hbm. rewrite Hbm in H. discriminate.
  - split; [intros _; exact HB|reflexivity].
Qed.

(** The alias [findShortestAlias] returns is the candidate of the first
    entry with the fewest segments among the matching ones. *)
Lemma findShortestAlias_best :
  forall (absolutePath baseUrl : string) (aliasMap : AliasMap) (a : string),
    findShortestAlias absolutePath baseUrl aliasMap = Some a ->
    exists before entry after,
      aliasMap = (before ++ entry :: after)%list
      /\ matches (dropSourceExtension absolutePath) entry = true
      /\ candidateOf (dropSourceExtension absolutePath) entry = a
      /\ (forall e, In e before ->
                    matches (dropSourceExtension absolutePath) e = true ->
                    countSegments a
                    < countSegments
                        (candidateOf (dropSourceExtension absolutePath) e))
      /\ (forall e, In e after ->
                    matches (dropSourceExtension absolutePath) e = true ->
                    countSegments a
                    <= countSegments
                         (candidateOf (dropSourceExtension absolutePath) e)).
Proof.
  intros absolutePath baseUrl aliasMap a. unfold findShortestAlias.
  pose proof (fold_considerAlias_Best (dropSourceExtension absolutePath)
                aliasMap) as HB.
  destruct (fold_left _ aliasMap (None, None)) as [[a'|] [n|]];
    simpl in HB; try contradiction; simpl; [|discriminate].
  intros H; inversion H; subst a'.
  destruct HB as (-> & before & best & after & Hmap & Hbm & Hbc & Hlt & Hle).
  exists before, best, after. auto.
Qed.

(** X3. [findShortestAlias] returns [null] exactly when no target of the
    alias map is a prefix of the path without its source extension; on the
    empty map it returns [null] for every path. *)
Theorem findShortestAlias_none_iff :
  forall (absolutePath baseUrl : string) (aliasMap : AliasMap),
    (findShortestAlias absolutePath baseUrl aliasMap = None
     <-> (forall entry, In entry aliasMap ->
                        Js.startsWith (dropSourceExtension absolutePath)
                          (fst entry) = false))
    /\ findShortestAlias absolutePath baseUrl [] = None.
Proof.
  intros absolutePath baseUrl aliasMap. split.
  - apply findShortestAlias_null.
  - reflexivity.
Qed.

(** X4. When [findShortestAlias] returns an alias, it is the candidate
    [aliasPrefix + remainder], without a trailing [/index], of an entry
    whose target is a prefix of the path; this candidate has strictly fewer
    segments than the candidates of the matching entries before it in the
    map and at most as many as those of the matching entries after it: the
    fewest segments win, and on a tie the entry set first. *)
Theorem findShortestAlias_first_minimum :
  forall (absolutePath baseUrl : string) (aliasMap : AliasMap) (a : string),
    findShortestAlias absolutePath baseUrl aliasMap = Some a ->
    exists before entry after,
      aliasMap = (before ++ entry :: after)%list
      /\ In entry aliasMap
      /\ Js.startsWith (dropSourceExtension absolutePath) (fst entry) = true
      /\ a = Js.dropSuffix "/index"
               (snd entry
                  ++ Js.slice (String.length (fst entry))
                       (dropSourceExtension absolutePath))
      /\ (forall e, In e before ->
                    matches (dropSourceExtension absolutePath) e = true ->
                    countSegments a
                    < countSegments
                        (candidateOf (dropSourceExtension absolutePath) e))
      /\ (forall e, In e after ->
                    matches (dropSourceExtension absolutePath) e = true ->
                    countSegments a
                    <= countSegments
                         (candidateOf (dropSourceExtension absolutePath) e)).
Proof.
  intros absolutePath baseUrl aliasMap a Hfind.
  apply findShortestAlias_best in Hfind
    as (before & entry & after & Hmap & Hm & Hc & Hlt & Hle).
  exists before, entry, after.
  split; [exact Hmap|].
  split; [rewrite Hmap; apply in_elt|].
  split; [exact Hm|].
  split; [symmetry; exact Hc|].
  split; assumption.
Qed.

(** For [/fx/src/components/Button.ts] the fixture's table has two
    matching entries, [@] before [@components]; the later one wins with 2
    segments against 3. *)
Lemma findShortestAlias_first_minimum_witness :
  exists before entry after,
    Fixture.aliasMap = (before ++ entry :: after)%list
    /\ In entry Fixture.aliasMap
    /\ Js.startsWith (dropSourceExtension "/fx/src/components/Button.ts")
         (fst entry) = true
    /\ "@components/Button"
       = Js.dropSuffix "/index"
           (snd entry
              ++ Js.slice (String.length (fst entry))
                   (dropSourceExtension "/fx/src/components/Button.ts"))
    /\ (forall e, In e before ->
                  matches (dropSourceExtension "/fx/src/components/Button.ts") e
                  = true ->
                  countSegments "@components/Button"
                  < countSegments
                      (candidateOf
                         (dropSourceExtension "/fx/src/components/Button.ts") e))
    /\ (forall e, In e after ->
                  matches (dropSourceExtension "/fx/src/components/Button.ts") e
                  = true ->
                  countSegments "@components/Button"
                  <= countSegments
                       (candidateOf
                          (dropSourceExtension "/fx/src/components/Button.ts")
                          e)).
Proof.
  apply (findShortestAlias_first_minimum "/fx/src/components/Button.ts" "/fx"
           Fixture.aliasMap "@components/Button").
  reflexivity.
Defined.

(** X5. A path that lies under a target of the alias map always gets an
    alias: when the path without its source extension is [target] followed
    by [rest] and the map sets [target] to [alias], [findShortestAlias]
    returns an alias, with at most as many segments as [alias + rest]
    without a trailing [/index]. *)
Theorem findShortestAlias_under_target :
  forall (absolutePath baseUrl : string) (aliasMap : AliasMap)
         (target alias rest : string),
    dropSourceExtension absolutePath = target ++ rest ->
    In (target, alias) aliasMap ->
    exists a,
      findShortestAlias absolutePath baseUrl aliasMap = Some a
      /\ countSegments a
         <= countSegments (Js.dropSuffix "/index" (alias ++ rest)).
Proof.
  intros absolutePath baseUrl aliasMap target alias rest Hnorm Hin.
  assert (matches (target ++ rest) (target, alias) = true) as Hm
      by apply startsWith_app_intro.
  assert (candidateOf (target ++ rest) (target, alias)
          = Js.dropSuffix "/index" (alias ++ rest)) as Hc.
  { unfold candidateOf. simpl. now rewrite slice_app_length. }
  destruct (findShortestAlias absolutePath baseUrl aliasMap) as [a|] eqn:Hfind.
  - exists a. split; [reflexivity|].
    apply findShortestAlias_best in Hfind
      as (before & best & after & -> & Hbm & Hbc & Hlt & Hle).
    rewrite Hnorm in *. rewrite <- Hc.
    apply in_app_or in Hin as [Hin|[<-|Hin]].
    + specialize (Hlt _ Hin Hm). lia.
    + rewrite Hbc. lia.
    + exact (Hle _ Hin Hm).
  - exfalso.
    pose proof (proj1 (findShortestAlias_null absolutePath baseUrl aliasMap)
                  Hfind _ Hin) as H.
    rewrite Hnorm in H. simpl in H.
    unfold matches in Hm. simpl in Hm. congruence.
Qed.

(** The file [/fx/src/utils/helpers.ts] lies under [/fx/src/utils], which
    the fixture's table sets to [@utils]. *)
Lemma findShortestAlias_under_target_witness :
  exists a,
    findShortestAlias "/fx/src/utils/helpers.ts" "/fx" Fixture.aliasMap = Some a
    /\ countSegments a
       <= countSegments (Js.dropSuffix "/index" ("@utils" ++ "/helpers")).
Proof.
  apply (findShortestAlias_under_target "/fx/src/utils/helpers.ts" "/fx"
           Fixture.aliasMap "/fx/src/utils" "@utils" "/helpers").
  - reflexivity.
  - vm_compute. auto.
Defined.

(** *** Segment counts of composed specifiers *)

Lemma split_app_sep (a b : string) :
  Js.split "/" (a ++ "/" ++ b) = (Js.split "/" a ++ Js.split "/" b)%list.
Proof.
  induction a as [|c a IH]; [reflexivity|].
  simpl String.append. simpl Js.split.
  destruct (Ascii.eqb c "/").
  - simpl. f_equal. exact IH.
  - change (String "/" b) with ("/" ++ b). rewrite IH.
    pose proof (split_nonempty "/" a) as Hne.
    destruct (Js.split "/" a); [congruence|reflexivity].
Qed.

Lemma countSegments_additive (a b : string) :
  countSegments (a ++ "/" ++ b) = countSegments a + countSegments b.
Proof.
  rewrite !countSegments_split, split_app_sep, filter_app.
  apply List.length_app.
Qed.

(** X6. Segment counts add up across a separator: the count of [a/b] is
    the count of [a] plus the count of [b], for all [a] and [b].  So every
    leading [../] costs one segment, a leading [./] and a trailing [/] cost
    none, and a trailing [/index] costs one. *)
Theorem countSegments_app_slash :
  forall a b : string,
    countSegments (a ++ "/" ++ b) = countSegments a + countSegments b
    /\ countSegments ("../" ++ b) = 1 + countSegments b
    /\ countSegments ("./" ++ b) = countSegments b
    /\ countSegments (a ++ "/") = countSegments a
    /\ countSegments (a ++ "/index") = countSegments a + 1.
Proof.
  intros a b. split; [apply countSegments_additive|].
  split; [exact (countSegments_additive ".." b)|].
  split; [exact (countSegments_additive "." b)|].
  split.
  - change (a ++ "/") with (a ++ "/" ++ "").
    rewrite (countSegments_additive a ""). apply Nat.add_0_r.
  - exact (countSegments_additive a "index").
Qed.

(** *** Specifiers that resolve to nothing *)

Lemma findFirstExistingPath_absent (fs : Filesystem) (tryPaths : list TryPath) :
  Forall (absent fs) tryPaths ->
  findFirstExistingPath tryPaths (readJsonFromDiskSync fs) (fileExistsSync fs)
  = None.
Proof.
  induction 1 as [|tryPath rest Habs _ IH]; [reflexivity|].
  simpl. unfold absent in Habs.
  destruct (type tryPath); rewrite Habs; exact IH.
Qed.

(** X7. A specifier that is not relative and for which the disk has none
    of the paths [matchPath] tries (the mapped path itself, with each of the
    extensions, as a package and as a directory with an index file) is
    never reported, whatever the file, the alias map and the number of its
    segments: so it is for the name of an external package. *)
Theorem unresolved_specifier_is_not_reported :
  forall (fs : Filesystem) (cwd fileDir absoluteBaseUrl : string)
         (paths : list (string * list string)) (aliasMap : AliasMap)
         (specifier raw : string),
    Js.startsWith specifier "." = false ->
    Forall (absent fs) (triedPaths cwd absoluteBaseUrl paths specifier) ->
    ImportDeclaration cwd fileDir absoluteBaseUrl
      (createMatchPath fs cwd absoluteBaseUrl paths) aliasMap
      (importOf specifier raw)
    = None.
Proof.
  intros fs cwd fileDir base paths aliasMap specifier raw Hrel Habs.
  rewrite ImportDeclaration_alternative. unfold alternative. rewrite Hrel.
  unfold createMatchPath, triedPaths in *.
  destruct (getPathsToTry extensions _ specifier) as [tryPaths|];
    [|reflexivity].
  now rewrite findFirstExistingPath_absent.
Qed.

(** A dollar sign in a specifier is read as [String.prototype.replace]
    reads it in a replacement text: [@/$$store] is tried as [src/$store],
    and reported when that file is on the disk. *)
Lemma matchPath_reads_dollar_patterns :
  replaceStar "/fx/src/*" "$$store" = "/fx/src/$store"
  /\ List.map shorter
       (lint (Fixture.hostOf ["/fx/src/$store.ts"] Fixture.paths)
          "/fx/src/a.ts" defaultOptions (Fixture.doubleQuoted "@/$$store"))
     = ["./$store"].
Proof. split; reflexivity. Qed.

(** The package [react] is not on the fixture's disk, under none of the
    paths tried for it. *)
Lemma unresolved_specifier_is_not_reported_witness :
  ImportDeclaration "/fx" "/fx/src/components" "/fx"
    (createMatchPath (Fixture.diskOf Fixture.files) "/fx" "/fx" Fixture.paths)
    Fixture.aliasMap (importOf "react" "react")
  = None.
Proof.
  apply unresolved_specifier_is_not_reported.
  - reflexivity.
  - vm_compute. repeat constructor.
Defined.

(** *** Relative forms between plain absolute paths *)

Section PlainPaths.

Lemma plainSegment_eqb (seg : string) :
  plainSegment seg ->
  String.eqb seg "" = false /\ String.eqb seg "." = false
  /\ String.eqb seg ".." = false.
Proof.
  intros (_ & H1 & H2 & H3). repeat split; now apply String.eqb_neq.
Qed.

Lemma normalizeStep_plain (allowAboveRoot : bool) (acc : list string)
    (seg : string) :
  plainSegment seg -> Path.normalizeStep allowAboveRoot acc seg = seg :: acc.
Proof.
  intros H. apply plainSegment_eqb in H as (H1 & H2 & H3).
  unfold Path.normalizeStep. now rewrite H1, H2, H3.
Qed.

Lemma normalizeStep_empty (allowAboveRoot : bool) (acc : list string) :
  Path.normalizeStep allowAboveRoot acc "" = acc.
Proof. reflexivity. Qed.

Lemma fold_normalizeStep_plain (allowAboveRoot : bool)
    (segs acc : list string) :
  Forall plainSegment segs ->
  fold_left (Path.normalizeStep allowAboveRoot) segs acc
  = (rev segs ++ acc)%list.
Proof.
  intros H. revert acc.
  induction H as [|seg segs Hseg _ IH]; intros acc; [reflexivity|].
  simpl. rewrite normalizeStep_plain by assumption.
  rewrite IH, <- app_assoc. reflexivity.
Qed.

Lemma Forall_plain_noSlash (segs : list string) :
  Forall plainSegment segs -> Forall noSlash segs.
Proof. apply Forall_impl. now intros seg [H _]. Qed.

(** Normalizing the joined plain segments, between any separators, gives
    them back. *)
Lemma fold_normalizeStep_join (allowAboveRoot : bool) (segs acc : list string) :
  Forall plainSegment segs ->
  fold_left (Path.normalizeStep allowAboveRoot)
    (Js.split "/" (Js.join "/" segs)) acc
  = (rev segs ++ acc)%list.
Proof.
  intros H. destruct segs as [|seg segs]; [reflexivity|].
  rewrite split_join by (discriminate || now apply Forall_plain_noSlash).
  now apply fold_normalizeStep_plain.
Qed.

(** [path.resolve] leaves an absolute path of plain segments as it is. *)
Lemma resolve_absoluteOf (cwd : string) (segs : list string) :
  Forall plainSegment segs ->
  Path.resolve cwd [absoluteOf segs] = absoluteOf segs.
Proof.
  intros H. unfold Path.resolve, absoluteOf. simpl.
  unfold Path.normalizeString. simpl negb.
  change (String "/" (Js.join "/" segs ++ "/"))
    with ("" ++ "/" ++ (Js.join "/" segs ++ "/" ++ "")).
  rewrite !split_app_sep. simpl Js.split at 1 3.
  simpl app at 1. simpl fold_left.
  rewrite fold_left_app, fold_normalizeStep_join by assumption.
  cbn [fold_left]. rewrite !normalizeStep_empty, app_nil_r, rev_involutive.
  reflexivity.
Qed.

Lemma filter_nonempty_plain (segs : list string) :
  Forall plainSegment segs ->
  filter (fun s => negb (String.eqb s "")) segs = segs.
Proof.
  induction 1 as [|seg segs Hseg _ IH]; [reflexivity|].
  simpl. apply plainSegment_eqb in Hseg as [-> _]. simpl. now rewrite IH.
Qed.

Lemma segments_absoluteOf (segs : list string) :
  Forall plainSegment segs -> Path.segments (absoluteOf segs) = segs.
Proof.
  intros H. unfold Path.segments, absoluteOf.
  change ("/" ++ Js.join "/" segs) with ("" ++ "/" ++ Js.join "/" segs).
  rewrite split_app_sep. simpl.
  destruct segs as [|seg segs]; [reflexivity|].
  rewrite split_join by (discriminate || now apply Forall_plain_noSlash).
  now apply filter_nonempty_plain.
Qed.

Lemma dropCommon_same (segs : list string) :
  Path.dropCommon segs segs = ([], []).
Proof.
  induction segs as [|seg segs IH]; [reflexivity|].
  simpl. now rewrite String.eqb_refl.
Qed.

Lemma dropCommon_Forall (P : string -> Prop) (from to : list string) :
  Forall P from -> Forall P to ->
  Forall P (fst (Path.dropCommon from to))
  /\ Forall P (snd (Path.dropCommon from to)).
Proof.
  revert to. induction from as [|f from IH]; intros to Hf Ht.
  - simpl. now destruct to.
  - destruct to as [|t to]; [now split|].
    simpl. destruct (String.eqb f t); [|now split].
    inversion Hf; inversion Ht; subst. now apply IH.
Qed.

(** Between two absolute paths of plain segments [path.relative] is one
    [..] per segment of the first below their common ancestor, then the
    segments of the second below it. *)
Lemma relative_plain (cwd : string) (from to : list string) :
  Forall plainSegment from -> Forall plainSegment to ->
  Path.relative cwd (absoluteOf from) (absoluteOf to)
  = Js.join "/"
      (map (fun _ => "..") (fst (Path.dropCommon from to))
         ++ snd (Path.dropCommon from to)).
Proof.
  intros Hf Ht. unfold Path.relative.
  destruct (String.eqb_spec (absoluteOf from) (absoluteOf to)) as [Heq|Hne].
  - apply (f_equal Path.segments) in Heq.
    rewrite !segments_absoluteOf in Heq by assumption. subst to.
    now rewrite dropCommon_same.
  - rewrite !resolve_absoluteOf by assumption.
    destruct (String.eqb_spec (absoluteOf from) (absoluteOf to)); [contradiction|].
    rewrite !segments_absoluteOf by assumption.
    now destruct (Path.dropCommon from to).
Qed.

End PlainPaths.

Lemma toRelativeImport_plain (cwd : string) (from to : list string) :
  Forall plainSegment from -> Forall plainSegment to ->
  toRelativeImport cwd (absoluteOf from) (absoluteOf to)
  = Js.dropSuffix "/index" (dropSourceExtension (dottedRelative from to)).
Proof.
  intros Hf Ht. unfold toRelativeImport, dottedRelative.
  now rewrite relative_plain.
Qed.

Lemma counted_plain (seg : string) : plainSegment seg -> counted seg = true.
Proof.
  intros H. apply plainSegment_eqb in H as (H1 & H2 & _).
  unfold counted. now rewrite H1, H2.
Qed.

Lemma filter_counted_all (segs : list string) :
  Forall (fun seg => counted seg = true) segs -> filter counted segs = segs.
Proof.
  induction 1 as [|seg segs Hseg _ IH]; [reflexivity|].
  simpl. now rewrite Hseg, IH.
Qed.

Lemma countSegments_dottedRelative (from to : list string) :
  Forall plainSegment from -> Forall plainSegment to ->
  countSegments (dottedRelative from to) = distance from to.
Proof.
  intros Hf Ht. unfold dottedRelative, distance.
  destruct (dropCommon_Forall plainSegment from to Hf Ht) as [_ Hdown].
  set (up := fst (Path.dropCommon from to)) in *.
  set (down := snd (Path.dropCommon from to)) in *.
  assert (countSegments (Js.join "/" (map (fun _ => "..") up ++ down))
          = List.length up + List.length down) as Hcount.
  { rewrite countSegments_join.
    - rewrite filter_counted_all.
      + now rewrite List.length_app, List.length_map.
      + apply Forall_app. split.
        * apply Forall_forall. intros seg Hin.
          apply in_map_iff in Hin as (? & <- & _). reflexivity.
        * eapply Forall_impl; [|exact Hdown]. apply counted_plain.
    - apply Forall_app. split.
      + apply Forall_forall. intros seg Hin.
        apply in_map_iff in Hin as (? & <- & _). reflexivity.
      + now apply Forall_plain_noSlash. }
  destruct (Js.startsWith _ "."); simpl negb; cbv iota.
  - exact Hcount.
  - change ("./" ++ ?r) with ("." ++ "/" ++ r).
    rewrite (countSegments_additive "."). exact Hcount.
Qed.

(** X8. Between two absolute paths made of plain segments (no empty one,
    no [.], no [..]) [toRelativeImport] returns one [..] per directory of
    [fromDir] below the common ancestor followed by the segments of the
    target below it, with [./] in front when that does not start with a
    dot, and then without a source extension and a trailing [/index];
    before these two are stripped, its segment count is the number of
    directory steps between the two paths. *)
Theorem toRelativeImport_between_plain_paths :
  forall (cwd : string) (from to : list string),
    Forall plainSegment from -> Forall plainSegment to ->
    toRelativeImport cwd (absoluteOf from) (absoluteOf to)
    = Js.dropSuffix "/index" (dropSourceExtension (dottedRelative from to))
    /\ countSegments (dottedRelative from to) = distance from to.
Proof.
  intros cwd from to Hf Ht. split.
  - now apply toRelativeImport_plain.
  - now apply countSegments_dottedRelative.
Qed.

(** From [/fx/src/features/auth] to [/fx/src/utils/helpers.ts]: two steps
    up, two down. *)
Lemma toRelativeImport_between_plain_paths_witness :
  toRelativeImport "/cwd" (absoluteOf ["fx"; "src"; "features"; "auth"])
    (absoluteOf ["fx"; "src"; "utils"; "helpers.ts"])
  = Js.dropSuffix "/index"
      (dropSourceExtension
         (dottedRelative ["fx"; "src"; "features"; "auth"]
            ["fx"; "src"; "utils"; "helpers.ts"]))
  /\ countSegments
       (dottedRelative ["fx"; "src"; "features"; "auth"]
          ["fx"; "src"; "utils"; "helpers.ts"])
     = distance ["fx"; "src"; "features"; "auth"]
         ["fx"; "src"; "utils"; "helpers.ts"].
Proof.
  apply toRelativeImport_between_plain_paths;
    repeat constructor; discriminate.
Defined.

(** X9. For a specifier that is not relative and that [matchPath] resolves
    to an absolute path of plain segments without source extension and
    trailing [/index], the listener in a directory of plain segments
    decides by the number of directory steps between the two: it reports
    the relative form when the steps are fewer than the specifier's
    segments, and makes no report otherwise. *)
Theorem alias_import_decided_by_distance :
  forall (cwd absoluteBaseUrl : string) (matchPath : MatchPath)
         (aliasMap : AliasMap) (from to : list string)
         (specifier raw : string),
    Forall plainSegment from -> Forall plainSegment to ->
    Js.startsWith specifier "." = false ->
    matchPath specifier None None (Some extensions) = Some (absoluteOf to) ->
    dropSourceExtension (dottedRelative from to) = dottedRelative from to ->
    Js.endsWith (dottedRelative from to) "/index" = false ->
    verdictOf
      (ImportDeclaration cwd (absoluteOf from) absoluteBaseUrl matchPath
         aliasMap (importOf specifier raw))
    = if Nat.ltb (distance from to) (countSegments specifier)
      then Replace (dottedRelative from to)
      else Keep.
Proof.
  intros cwd base matchPath aliasMap from to specifier raw
         Hf Ht Hrel Hres Hext Hindex.
  rewrite ImportDeclaration_alternative. unfold alternative.
  rewrite Hrel, Hres.
  replace (Js.truthy (Some (absoluteOf to))) with (Some (absoluteOf to))
    by reflexivity.
  cbn [option_map].
  rewrite toRelativeImport_plain by assumption.
  rewrite Hext. unfold Js.dropSuffix at 1 2 3. rewrite Hindex.
  rewrite countSegments_dottedRelative by assumption.
  destruct (Nat.ltb (distance from to) (countSegments specifier)); reflexivity.
Qed.

(** In [/fx/src/components] the import [@/components/Button] resolves to
    [/fx/src/components/Button], one step away: it is replaced by
    [./Button]. *)
Lemma alias_import_decided_by_distance_witness :
  verdictOf
    (ImportDeclaration "/fx" (absoluteOf ["fx"; "src"; "components"]) "/fx"
       Fixture.matchPath Fixture.aliasMap
       (importOf "@/components/Button" "@/components/Button"))
  = if Nat.ltb (distance ["fx"; "src"; "components"]
                  ["fx"; "src"; "components"; "Button"])
         (countSegments "@/components/Button")
    then Replace (dottedRelative ["fx"; "src"; "components"]
                    ["fx"; "src"; "components"; "Button"])
    else Keep.
Proof.
  apply alias_import_decided_by_distance;
    try reflexivity; repeat constructor; discriminate.
Defined.

(** *** The relative form denotes the path it was computed from *)

Section RoundTrip.

Lemma dropCommon_split (from to : list string) :
  exists common,
    from = (common ++ fst (Path.dropCommon from to))%list
    /\ to = (common ++ snd (Path.dropCommon from to))%list.
Proof.
  revert to. induction from as [|f from IH]; intros to.
  - exists []. now destruct to.
  - destruct to as [|t to]; [now exists []|].
    simpl. destruct (String.eqb_spec f t) as [->|Hne].
    + destruct (IH to) as (common & Hf & Ht).
      exists (t :: common). simpl. now rewrite <- Hf, <- Ht.
    + now exists [].
Qed.

(** Each [..] removes the plain segment on top of the stack. *)
Lemma fold_normalizeStep_up (allowAboveRoot : bool)
    (ups stack acc : list string) :
  Forall plainSegment stack -> List.length ups = List.length stack ->
  fold_left (Path.normalizeStep allowAboveRoot)
    (map (fun _ => "..") ups) (stack ++ acc)%list
  = acc.
Proof.
  revert stack. induction ups as [|u ups IH]; intros stack Hplain Hlen.
  - destruct stack; [reflexivity|discriminate].
  - destruct stack as [|top stack]; [discriminate|].
    inversion Hplain as [|? ? Htop Hstack]; subst.
    simpl. apply plainSegment_eqb in Htop as (_ & _ & Htop).
    unfold Path.normalizeStep at 2. simpl String.eqb at 1 2 3.
    cbn [orb]. rewrite Htop. apply IH; [assumption|]. simpl in Hlen. lia.
Qed.

Lemma normalizeStep_dot (allowAboveRoot : bool) (acc : list string) :
  Path.normalizeStep allowAboveRoot acc "." = acc.
Proof. reflexivity. Qed.

(** Normalizing the segments of [from], then those of the dotted relative
    path from [from] to [to], leaves the segments of [to]. *)
Lemma fold_normalizeStep_dottedRelative (from to : list string) :
  Forall plainSegment from -> Forall plainSegment to ->
  fold_left (Path.normalizeStep false)
    (Js.split "/" (dottedRelative from to)) (rev from)
  = rev to.
Proof.
  intros Hf Ht.
  destruct (dropCommon_split from to) as (common & Hfrom & Hto).
  destruct (dropCommon_Forall plainSegment from to Hf Ht) as [Hup Hdown].
  unfold dottedRelative.
  set (up := fst (Path.dropCommon from to)) in *.
  set (down := snd (Path.dropCommon from to)) in *.
  assert (fold_left (Path.normalizeStep false)
            (Js.split "/" (Js.join "/" (map (fun _ => "..") up ++ down)))
            (rev from)
          = rev to) as Hfold.
  { assert (fold_left (Path.normalizeStep false)
              (map (fun _ => "..") up ++ down)%list (rev from) = rev to) as H.
    { rewrite fold_left_app.
      rewrite Hfrom at 1. rewrite rev_app_distr.
      rewrite fold_normalizeStep_up.
      - rewrite fold_normalizeStep_plain by assumption.
        rewrite Hto at 1. now rewrite rev_app_distr.
      - apply Forall_forall. intros seg Hin. apply in_rev in Hin.
        rewrite Forall_forall in Hup. now apply Hup.
      - now rewrite List.length_rev. }
    destruct (map (fun _ => "..") up ++ down)%list as [|seg segs] eqn:Hsegs.
    - simpl in *. exact H.
    - rewrite split_join; [exact H|discriminate|].
      rewrite <- Hsegs. apply Forall_app. split.
      + apply Forall_forall. intros s Hin.
        apply in_map_iff in Hin as (? & <- & _). reflexivity.
      + now apply Forall_plain_noSlash. }
  destruct (Js.startsWith _ "."); simpl negb; cbv iota.
  - exact Hfold.
  - change ("./" ++ ?r) with ("." ++ "/" ++ r).
    rewrite split_app_sep. simpl Js.split at 1.
    cbn [app fold_left]. rewrite normalizeStep_dot. exact Hfold.
Qed.

Lemma dottedRelative_nonempty (from to : list string) :
  String.eqb (dottedRelative from to) "" = false
  /\ Js.startsWith (dottedRelative from to) "/" = false.
Proof.
  unfold dottedRelative.
  destruct (Js.startsWith _ ".") eqn:H; simpl negb; cbv iota.
  - destruct (Js.join "/" _) as [|c r]; [discriminate|].
    simpl in H. apply andb_prop in H as [H _].
    apply Ascii.eqb_eq in H. subst c. split; reflexivity.
  - split; reflexivity.
Qed.

(** Resolved against [from], the dotted relative path from [from] to [to]
    is [to]. *)
Lemma resolve_dottedRelative (cwd : string) (from to : list string) :
  Forall plainSegment from -> Forall plainSegment to ->
  Path.resolve cwd [absoluteOf from; dottedRelative from to] = absoluteOf to.
Proof.
  intros Hf Ht. unfold Path.resolve.
  destruct (dottedRelative_nonempty from to) as [Hne Habs].
  simpl rev. simpl app. unfold Path.resolveLoop.
  rewrite Hne, Habs.
  replace (String.eqb (absoluteOf from) "") with false by reflexivity.
  replace (Js.startsWith (absoluteOf from) "/") with true by reflexivity.
  unfold Path.normalizeString. simpl negb. cbv iota.
  unfold absoluteOf at 1.
  change (("/" ++ Js.join "/" from) ++ "/" ++ dottedRelative from to ++ "/" ++ "")
    with ("" ++ "/" ++ (Js.join "/" from ++ "/"
                          ++ (dottedRelative from to ++ "/" ++ ""))).
  rewrite !split_app_sep. simpl Js.split at 1 4.
  rewrite !fold_left_app. cbn [fold_left].
  rewrite !normalizeStep_empty.
  rewrite fold_normalizeStep_join by assumption. rewrite app_nil_r.
  rewrite fold_normalizeStep_dottedRelative by assumption.
  now rewrite rev_involutive.
Qed.

End RoundTrip.

(** X10. The relative form denotes the path it was computed from: for a
    directory and a target that are absolute paths of plain segments,
    the target without source extension and trailing [/index], resolving
    what [toRelativeImport] returns against the directory, as the listener
    does for a relative specifier, gives the target back. *)
Theorem toRelativeImport_resolves_back :
  forall (cwd : string) (from to : list string),
    Forall plainSegment from -> Forall plainSegment to ->
    dropSourceExtension (dottedRelative from to) = dottedRelative from to ->
    Js.endsWith (dottedRelative from to) "/index" = false ->
    Path.resolve cwd
      [absoluteOf from;
       toRelativeImport cwd (absoluteOf from) (absoluteOf to)]
    = absoluteOf to.
Proof.
  intros cwd from to Hf Ht Hext Hindex.
  rewrite toRelativeImport_plain by assumption.
  rewrite Hext. unfold Js.dropSuffix. rewrite Hindex.
  now apply resolve_dottedRelative.
Qed.

(** From [/fx/src/features/auth] the relative form of
    [/fx/src/utils/helpers] is [../../utils/helpers], which resolves
    back to it. *)
Lemma toRelativeImport_resolves_back_witness :
  Path.resolve "/cwd"
    [absoluteOf ["fx"; "src"; "features"; "auth"];
     toRelativeImport "/cwd" (absoluteOf ["fx"; "src"; "features"; "auth"])
       (absoluteOf ["fx"; "src"; "utils"; "helpers"])]
  = absoluteOf ["fx"; "src"; "utils"; "helpers"].
Proof.
  apply toRelativeImport_resolves_back;
    try reflexivity; repeat constructor; discriminate.
Defined.

Lemma dottedRelative_relative (from to : list string) :
  Js.startsWith (dottedRelative from to) "." = true.
Proof.
  unfold dottedRelative.
  set (r := Js.join "/" _).
  destruct (Js.startsWith r ".") eqn:H; simpl negb; cbv iota;
    [exact H|reflexivity].
Qed.

(** X11. For the relative specifier that leads from a directory to a
    target, both absolute paths of plain segments, the listener looks up
    the target in the alias map and decides by the number of directory
    steps: it reports the alias [findShortestAlias] returns for the target
    when that alias is not empty and has fewer segments than there are
    steps, and makes no report otherwise. *)
Theorem relative_import_decided_by_distance :
  forall (cwd absoluteBaseUrl : string) (matchPath : MatchPath)
         (aliasMap : AliasMap) (from to : list string) (raw : string),
    Forall plainSegment from -> Forall plainSegment to ->
    verdictOf
      (ImportDeclaration cwd (absoluteOf from) absoluteBaseUrl matchPath
         aliasMap (importOf (dottedRelative from to) raw))
    = match Js.truthy (findShortestAlias (absoluteOf to) absoluteBaseUrl
                         aliasMap) with
      | Some a =>
          if Nat.ltb (countSegments a) (distance from to)
          then Replace a else Keep
      | None => Keep
      end.
Proof.
  intros cwd base matchPath aliasMap from to raw Hf Ht.
  rewrite ImportDeclaration_alternative. unfold alternative.
  rewrite dottedRelative_relative.
  rewrite resolve_dottedRelative by assumption.
  rewrite countSegments_dottedRelative by assumption.
  destruct (Js.truthy _) as [a|]; [|reflexivity].
  destruct (Nat.ltb (countSegments a) (distance from to)); reflexivity.
Qed.

(** From [/fx/src/features/auth] the import [../../utils/helpers] is four
    steps away from [/fx/src/utils/helpers], whose alias [@utils/helpers]
    has two segments. *)
Lemma relative_import_decided_by_distance_witness :
  verdictOf
    (ImportDeclaration "/fx" (absoluteOf ["fx"; "src"; "features"; "auth"])
       "/fx" Fixture.matchPath Fixture.aliasMap
       (importOf
          (dottedRelative ["fx"; "src"; "features"; "auth"]
             ["fx"; "src"; "utils"; "helpers"])
          "../../utils/helpers"))
  = match Js.truthy (findShortestAlias
                       (absoluteOf ["fx"; "src"; "utils"; "helpers"]) "/fx"
                       Fixture.aliasMap) with
    | Some a =>
        if Nat.ltb (countSegments a)
             (distance ["fx"; "src"; "features"; "auth"]
                ["fx"; "src"; "utils"; "helpers"])
        then Replace a else Keep
    | None => Keep
    end.
Proof.
  apply relative_import_decided_by_distance;
    repeat constructor; discriminate.
Defined.

(** *** From the configuration to an alias *)

Section Configured.

Lemma mapGet_Some_In (key value : string) (map : AliasMap) :
  mapGet key map = Some value -> In (key, value) map.
Proof.
  induction map as [|[k v] map IH]; simpl; [discriminate|].
  destruct (String.eqb_spec k key) as [->|Hne].
  - intros H; inversion H; now left.
  - intros H; right; now apply IH.
Qed.

(** Every target of the configuration is a key of the alias map. *)
Lemma buildAliasMap_has_target (cwd baseUrl : string)
    (paths : list (string * list string)) (alias target : string)
    (targets : list string) :
  In (alias, targets) paths -> In target targets ->
  exists a,
    In (Path.resolve cwd [baseUrl; Js.dropSuffix "/*" target], a)
       (buildAliasMap cwd baseUrl paths).
Proof.
  intros Hpaths Htarget.
  set (key := Path.resolve cwd [baseUrl; Js.dropSuffix "/*" target]).
  assert (In key (List.map fst (aliasPairs cwd baseUrl paths))) as Hkey.
  { apply in_map_iff. exists (key, Js.dropSuffix "/*" alias).
    split; [reflexivity|].
    unfold aliasPairs. apply in_flat_map. exists (alias, targets).
    split; [assumption|]. apply in_map_iff. now exists target. }
  rewrite buildAliasMap_pairs.
  pose proof (mapGet_fold key (aliasPairs cwd baseUrl paths) []) as Hget.
  unfold lastValue in Hget.
  rewrite in_rev, <- map_rev in Hkey. apply mapGet_In in Hkey.
  destruct (mapGet key (rev (aliasPairs cwd baseUrl paths))) as [a|];
    [|congruence].
  exists a. now apply mapGet_Some_In.
Qed.

Lemma join_plain_relative (segs : list string) :
  Forall plainSegment segs -> segs <> [] ->
  String.eqb (Js.join "/" segs) "" = false
  /\ Js.startsWith (Js.join "/" segs) "/" = false.
Proof.
  intros H Hne. destruct segs as [|seg segs]; [congruence|].
  inversion H as [|? ? (Hslash & Hempty & _) _]; subst.
  destruct seg as [|c seg]; [congruence|].
  apply noSlash_cons in Hslash as [Hc _].
  destruct segs; simpl; now rewrite ?Hc.
Qed.

(** [path.resolve] of plain segments against an absolute path of plain
    segments appends them. *)
Lemma resolve_plain_below (cwd : string) (base below : list string) :
  Forall plainSegment base -> Forall plainSegment below ->
  Path.resolve cwd [absoluteOf base; Js.join "/" below]
  = absoluteOf (base ++ below).
Proof.
  intros Hb Hd. destruct below as [|seg below].
  - rewrite app_nil_r. simpl Js.join.
    rewrite <- (resolve_absoluteOf cwd base Hb) at 2. reflexivity.
  - destruct (join_plain_relative (seg :: below) Hd) as [Hne Habs];
      [discriminate|].
    set (rel := Js.join "/" (seg :: below)) in *.
    unfold Path.resolve. simpl rev. simpl app. unfold Path.resolveLoop.
    rewrite Hne, Habs.
    replace (String.eqb (absoluteOf base) "") with false by reflexivity.
    replace (Js.startsWith (absoluteOf base) "/") with true by reflexivity.
    unfold Path.normalizeString. simpl negb. cbv iota.
    unfold absoluteOf at 1.
    change (("/" ++ Js.join "/" base) ++ "/" ++ rel ++ "/" ++ "")
      with ("" ++ "/" ++ (Js.join "/" base ++ "/" ++ (rel ++ "/" ++ ""))).
    rewrite !split_app_sep. simpl Js.split at 1 4. subst rel.
    rewrite !fold_left_app. cbn [fold_left].
    rewrite !normalizeStep_empty.
    rewrite !fold_normalizeStep_join by assumption.
    rewrite app_nil_r, <- rev_app_distr, rev_involutive. reflexivity.
Qed.

End Configured.

(** X12. Every file below a configured target directory gets an alias:
    when the base directory and a target pattern [dir/*] of the
    configuration are made of plain segments, [findShortestAlias], run
    with the map [buildAliasMap] builds, returns an alias for every path
    that, without its source extension, is the target directory followed
    by anything. *)
Theorem configured_target_is_aliased :
  forall (cwd : string) (base dir : list string)
         (paths : list (string * list string)) (alias : string)
         (targets : list string) (absolutePath rest : string),
    Forall plainSegment base -> Forall plainSegment dir ->
    In (alias, targets) paths ->
    In (Js.join "/" dir ++ "/*") targets ->
    dropSourceExtension absolutePath = absoluteOf (base ++ dir) ++ rest ->
    findShortestAlias absolutePath (absoluteOf base)
      (buildAliasMap cwd (absoluteOf base) paths)
    <> None.
Proof.
  intros cwd base dir paths alias targets absolutePath rest
         Hb Hd Hpaths Htarget Hnorm Hnone.
  destruct (buildAliasMap_has_target cwd (absoluteOf base) paths alias
              (Js.join "/" dir ++ "/*") targets Hpaths Htarget)
    as [a Hin].
  rewrite dropSuffix_app, resolve_plain_below in Hin by assumption.
  pose proof (proj1 (findShortestAlias_null _ _ _) Hnone _ Hin) as H.
  rewrite Hnorm in H. simpl fst in H.
  rewrite startsWith_app_intro in H. discriminate.
Qed.

(** The file [/fx/src/utils/deep/tool.ts] lies below the target
    [src/utils/*] of the fixture, whose base directory is [/fx]. *)
Lemma configured_target_is_aliased_witness :
  findShortestAlias "/fx/src/utils/deep/tool.ts" (absoluteOf ["fx"])
    (buildAliasMap "/cwd" (absoluteOf ["fx"]) Fixture.paths)
  <> None.
Proof.
  apply (configured_target_is_aliased "/cwd" ["fx"] ["src"; "utils"]
           Fixture.paths "@utils/*" ["src/utils/*"]
           "/fx/src/utils/deep/tool.ts" "/deep/tool").
  - repeat constructor; discriminate.
  - repeat constructor; discriminate.
  - simpl. auto.
  - simpl. auto.
  - reflexivity.
Defined.

(** *** Segment counts of the alternatives the resolver produces *)

Section AlternativeCounts.
















End AlternativeCounts.



